(** * market-watch: the fetch / classify / log pipeline of [main.py]

    A shallow embedding of [src/main.py] and the properties of its three
    indicator fetchers and of the monitor loop.

    Python values that travel through the program (decoded JSON, fetcher
    results) are the inductive [value]; Python's [float] is the binary64
    primitive [float] of the Standard Library, so the thresholds are compared
    exactly as the interpreter compares them.  Code that can raise runs in a
    state-and-exception monad [M] whose state holds the log file, the HTTP
    requests issued so far and the sleeps taken. *)

From Stdlib Require Import ZArith List String Ascii Bool Lia.
From Stdlib Require Import DecimalString.
From Stdlib Require Import Floats.PrimFloat Floats.SpecFloat Floats.FloatOps.
Import ListNotations.

Open Scope string_scope.
Open Scope Z_scope.

Set Warnings "-register-all".

(** ** Python values *)

(** What [json.loads] can produce, which is also everything the program
    handles: [None], [bool], [int], [float], [str], [list] and [dict] (a
    decoded JSON object keeps its members in order, with distinct keys). *)
Inductive value : Type :=
| VNone
| VBool (b : bool)
| VInt (z : Z)
| VFloat (f : float)
| VStr (s : string)
| VList (l : list value)
| VDict (o : list (string * value)).

(** ** Exceptions *)

(** The built-in and library exception classes that the program can meet;
    all of them derive from [Exception]. *)
Inductive exn_class : Type :=
| RequestException      (* requests: connection, DNS or timeout failure *)
| JSONDecodeError       (* response.json() on a body that is not JSON *)
| KeyError
| IndexError
| TypeError
| ValueError
| OverflowError
| UndefinedValueError.  (* decouple: option without value or default *)

(** [HTTPError] is the class declared in [main.py]; a built-in exception is
    its class and the text of [str(e)]. *)
Inductive exn : Type :=
| HTTPError (status : Z) (message : option string)
| Builtin (cls : exn_class) (text : string).

Inductive outcome (A : Type) : Type :=
| Ok (a : A)
| Raise (e : exn).
Arguments Ok {A} a.
Arguments Raise {A} e.

Definition dquote : string := String (ascii_of_nat 34) EmptyString.
Definition squote : string := String (ascii_of_nat 39) EmptyString.

(** [str(n)] for an [int]. *)
Definition str_int (z : Z) : string := NilZero.string_of_int (Z.to_int z).

(** [not s] for a [str]. *)
Definition str_is_empty (s : string) : bool :=
  match s with EmptyString => true | String _ _ => false end.

(** [HTTPError.__str__]. *)
Definition HTTPError_str (status : Z) (message : option string) : string :=
  match message with
  | None => "<HTTPError: status=" ++ str_int status ++ ">"
  | Some m =>
      if str_is_empty m then "<HTTPError: status=" ++ str_int status ++ ">"
      else "<HTTPError: status=" ++ str_int status ++ ", message=" ++ dquote ++ m ++ dquote ++ ">"
  end.

(** [str(e)]. *)
Definition exn_str (e : exn) : string :=
  match e with
  | HTTPError status message => HTTPError_str status message
  | Builtin _ text => text
  end.

(** ** Numbers *)

(** [int] to [float], rounding to nearest even; [None] where Python raises
    [OverflowError]. *)
Definition float_of_Z (z : Z) : option float :=
  match binary_normalize prec emax z 0 false with
  | S754_infinity _ => None
  | sf => Some (SF2Prim sf)
  end.

(** [a / b] on two [int]s, [b] positive: the quotient rounded once to
    binary64; [None] where Python raises [OverflowError]. *)
Definition int_truediv (a b : Z) : option float :=
  match a with
  | Z0 => Some zero
  | _ =>
      let '(q, e, l) := SFdiv_core_binary prec emax (Z.abs a) 0 (Z.abs b) 0 in
      match binary_round_aux prec emax (a <? 0) q e l with
      | S754_infinity _ => None
      | sf => Some (SF2Prim sf)
      end
  end.

(** Exact comparison of a [float] with an [int], as Python compares them;
    [None] for a NaN, which compares false with everything. *)
Definition float_cmp_Z (f : float) (z : Z) : option comparison :=
  match Prim2SF f with
  | S754_nan => None
  | S754_zero _ => Some (0 ?= z)
  | S754_infinity s => Some (if s then Lt else Gt)
  | S754_finite s m e =>
      let sm := if s then Zneg m else Zpos m in
      Some (if 0 <=? e then (sm * 2 ^ e ?= z) else (sm ?= z * 2 ^ (- e)))
  end.

(** The numeric tower: [bool] is a subclass of [int]. *)
Inductive number : Type :=
| NInt (z : Z)
| NFloat (f : float).

Definition as_number (v : value) : option number :=
  match v with
  | VBool b => Some (NInt (if b then 1 else 0))
  | VInt z => Some (NInt z)
  | VFloat f => Some (NFloat f)
  | _ => None
  end.

(** [x < y] on numbers. *)
Definition num_lt (x y : number) : bool :=
  match x, y with
  | NInt a, NInt b => a <? b
  | NFloat f, NFloat g => PrimFloat.ltb f g
  | NFloat f, NInt b =>
      match float_cmp_Z f b with Some Lt => true | _ => false end
  | NInt a, NFloat g =>
      match float_cmp_Z g a with Some Gt => true | _ => false end
  end.

(** The name Python prints for the type of a value. *)
Definition type_name (v : value) : string :=
  match v with
  | VNone => "NoneType"
  | VBool _ => "bool"
  | VInt _ => "int"
  | VFloat _ => "float"
  | VStr _ => "str"
  | VList _ => "list"
  | VDict _ => "dict"
  end.

(** [x < y] and [x > y] on values: defined between numbers, [TypeError]
    when an operand is not a number (the right operand is a number at both
    comparisons of the program). *)
Definition py_lt (x y : value) : outcome bool :=
  match as_number x, as_number y with
  | Some a, Some b => Ok (num_lt a b)
  | _, _ =>
      Raise (Builtin TypeError
        ("'<' not supported between instances of '" ++ type_name x
           ++ "' and '" ++ type_name y ++ "'"))
  end.

Definition py_gt (x y : value) : outcome bool :=
  match as_number x, as_number y with
  | Some a, Some b => Ok (num_lt b a)
  | _, _ =>
      Raise (Builtin TypeError
        ("'>' not supported between instances of '" ++ type_name x
           ++ "' and '" ++ type_name y ++ "'"))
  end.

(** [x + y] as [sum] uses it: numbers add, anything else is a
    [TypeError]. *)
Definition py_add (x y : value) : outcome value :=
  match as_number x, as_number y with
  | Some (NInt a), Some (NInt b) => Ok (VInt (a + b))
  | Some (NFloat f), Some (NFloat g) => Ok (VFloat (f + g))
  | Some (NInt a), Some (NFloat g) =>
      match float_of_Z a with
      | Some f => Ok (VFloat (f + g))
      | None => Raise (Builtin OverflowError "int too large to convert to float")
      end
  | Some (NFloat f), Some (NInt b) =>
      match float_of_Z b with
      | Some g => Ok (VFloat (f + g))
      | None => Raise (Builtin OverflowError "int too large to convert to float")
      end
  | _, _ =>
      Raise (Builtin TypeError
        ("unsupported operand type(s) for +: '" ++ type_name x
           ++ "' and '" ++ type_name y ++ "'"))
  end.

(** [sum(l)]: starts from the [int] 0 and adds from the left. *)
Fixpoint py_sum_from (acc : value) (l : list value) : outcome value :=
  match l with
  | [] => Ok acc
  | x :: l' =>
      match py_add acc x with
      | Ok acc' => py_sum_from acc' l'
      | Raise e => Raise e
      end
  end.

Definition py_sum (l : list value) : outcome value := py_sum_from (VInt 0) l.

(** [x / 200] for the result of a [sum]. *)
Definition py_truediv_200 (x : value) : outcome float :=
  match as_number x with
  | Some (NInt a) =>
      match int_truediv a 200 with
      | Some f => Ok f
      | None =>
          Raise (Builtin OverflowError "integer division result too large for a float")
      end
  | Some (NFloat f) => Ok (f / 200)%float
  | None =>
      Raise (Builtin TypeError
        ("unsupported operand type(s) for /: '" ++ type_name x ++ "' and 'int'"))
  end.

(** Truth value of an object, as [if x:] tests it. *)
Definition truthy (v : value) : bool :=
  match v with
  | VNone => false
  | VBool b => b
  | VInt z => negb (z =? 0)
  | VFloat f => negb (PrimFloat.eqb f zero)
  | VStr s => negb (str_is_empty s)
  | VList l => match l with [] => false | _ => true end
  | VDict o => match o with [] => false | _ => true end
  end.

(** ** Containers *)

Fixpoint dict_get (o : list (string * value)) (k : string) : option value :=
  match o with
  | [] => None
  | (k', v) :: o' => if String.eqb k' k then Some v else dict_get o' k
  end.

(** The position an index denotes in a sequence of [n] items: a negative
    index counts from the end; [None] when it is out of range. *)
Definition seq_index (n : nat) (i : Z) : option nat :=
  let j := if i <? 0 then i + Z.of_nat n else i in
  if (0 <=? j) && (j <? Z.of_nat n) then Some (Z.to_nat j) else None.

Fixpoint chars (s : string) : list value :=
  match s with
  | EmptyString => []
  | String c s' => VStr (String c EmptyString) :: chars s'
  end.

(** [repr] of a [str] without quotes, backslashes or control characters
    (the keys the program uses are such). *)
Definition repr_str (s : string) : string := squote ++ s ++ squote.

(** [v[k]] for a key [k] that is a [str], as in [data["chart"]]. *)
Definition getitem_key (v : value) (k : string) : outcome value :=
  match v with
  | VDict o =>
      match dict_get o k with
      | Some x => Ok x
      | None => Raise (Builtin KeyError (repr_str k))
      end
  | VList _ =>
      Raise (Builtin TypeError "list indices must be integers or slices, not str")
  | VStr _ =>
      Raise (Builtin TypeError "string indices must be integers, not 'str'")
  | _ =>
      Raise (Builtin TypeError ("'" ++ type_name v ++ "' object is not subscriptable"))
  end.

(** [v[i]] for an [int] index [i], as in [result[0]] and [closes[-1]]; a
    decoded JSON object has only [str] keys, so an [int] is never one. *)
Definition getitem_index (v : value) (i : Z) : outcome value :=
  match v with
  | VList l =>
      match seq_index (List.length l) i with
      | Some n => Ok (nth n l VNone)
      | None => Raise (Builtin IndexError "list index out of range")
      end
  | VStr s =>
      match seq_index (List.length (chars s)) i with
      | Some n => Ok (nth n (chars s) VNone)
      | None => Raise (Builtin IndexError "string index out of range")
      end
  | VDict _ => Raise (Builtin KeyError (str_int i))
  | _ =>
      Raise (Builtin TypeError ("'" ++ type_name v ++ "' object is not subscriptable"))
  end.

(** The items [for c in v] runs over. *)
Definition py_iter (v : value) : outcome (list value) :=
  match v with
  | VList l => Ok l
  | VStr s => Ok (chars s)
  | VDict o => Ok (map (fun kv => VStr (fst kv)) o)
  | _ => Raise (Builtin TypeError ("'" ++ type_name v ++ "' object is not iterable"))
  end.

(** [c is not None]. *)
Definition is_not_None (v : value) : bool :=
  match v with VNone => false | _ => true end.

(** [l[-k:]] for a positive [k]: the last [k] items, all of [l] when it has
    fewer. *)
Definition slice_last {A : Type} (k : nat) (l : list A) : list A :=
  skipn (List.length l - k) l.

(** ** The world outside the program *)

Record Request : Type := {
  url : string;
  headers : option (list (string * string));  (* [None]: no [headers=] argument *)
  timeout : option Z                          (* [None]: no [timeout=] argument *)
}.

Record Response : Type := {
  status_code : Z;
  content : string
}.

(** What [requests.get] meets: a response with a status, or a failure before
    any status is received, which [requests] raises as an exception. *)
Inductive Reply : Type :=
| Delivered (r : Response)
| Failed (detail : string).

(** The interpreter's and the libraries' functions that the program calls
    and that are not written out here, and the behaviour of the network and
    of the clock. *)
Record Runtime : Type := {
  network : nat -> Request -> Reply;      (* the reply to the n-th request *)
  clock : nat -> string;                  (* strftime of now() at the n-th write *)
  json_loads : string -> string + value;  (* decoding a body; [inl]: the decoder's error *)
  float_of_str : string -> option float;  (* float(s); [None]: ValueError *)
  int_of_str : string -> option Z;        (* int(s); [None]: ValueError *)
  repr_float : float -> string;           (* str(x) of a float *)
  format_2f : float -> string;            (* format(x, ".2f") of a float *)
  str_bytes : string -> string;           (* str(b) of a bytes object *)
  repr_compound : value -> string         (* str(x) of a list or a dict *)
}.

Record LogEntry : Type := {
  stamp : string;
  text : string
}.

(** The line [log] writes to the file and prints. *)
Definition line_of (e : LogEntry) : string :=
  "[" ++ stamp e ++ "] " ++ text e.

Record State : Type := {
  journal : list LogEntry;  (* the log file, oldest entry first *)
  sent : list Request;      (* the HTTP requests issued, oldest first *)
  slept : list Z            (* the arguments of time.sleep, oldest first *)
}.

Definition initial : State := {| journal := []; sent := []; slept := [] |}.

(** ** Computations that log, use the network and may raise *)

Definition M (A : Type) : Type := State -> outcome A * State.

Definition ret {A : Type} (a : A) : M A := fun s => (Ok a, s).

Definition raise {A : Type} (e : exn) : M A := fun s => (Raise e, s).

Definition bind {A B : Type} (m : M A) (k : A -> M B) : M B :=
  fun s =>
    match m s with
    | (Ok a, s') => k a s'
    | (Raise e, s') => (Raise e, s')
    end.

Definition lift {A : Type} (o : outcome A) : M A := fun s => (o, s).

(** [try: m / except Exception as e: h e]. *)
Definition try_except {A : Type} (m : M A) (h : exn -> M A) : M A :=
  fun s =>
    match m s with
    | (Ok a, s') => (Ok a, s')
    | (Raise e, s') => h e s'
    end.

Notation "x <- m ;; k" := (bind m (fun x => k))
  (at level 61, m at next level, right associativity).
Notation "m ;;; k" := (bind m (fun _ => k))
  (at level 61, right associativity).

(** Sequencing of plain results, for chains of subscripts. *)
Definition and_then {A B : Type} (o : outcome A) (k : A -> outcome B) : outcome B :=
  match o with
  | Ok a => k a
  | Raise e => Raise e
  end.

(** ** Configuration (lines 8-11) *)

Record Settings : Type := {
  FRED_API_KEY : string;
  LOG_FILE : string;
  CHECK_INTERVAL_MINUTES : Z
}.

(** [decouple.config(name, default=..., cast=...)]: the option is looked up
    in the environment (process variables, then the settings file); when it
    is not there the default stands in, and without a default the call
    raises [UndefinedValueError]. *)
Definition config {A : Type} (environ : string -> option string) (name : string)
    (default : option A) (cast : string -> outcome A) : outcome A :=
  match environ name with
  | Some raw => cast raw
  | None =>
      match default with
      | Some d => Ok d
      | None =>
          Raise (Builtin UndefinedValueError
            (name ++ " not found. Declare it as envvar or define a default value."))
      end
  end.

Definition cast_str (raw : string) : outcome string := Ok raw.

Definition cast_int (rt : Runtime) (raw : string) : outcome Z :=
  match int_of_str rt raw with
  | Some z => Ok z
  | None =>
      Raise (Builtin ValueError
        ("invalid literal for int() with base 10: " ++ repr_str raw))
  end.

(** The three module-level assignments, in order. *)
Definition load_settings (rt : Runtime) (environ : string -> option string)
    : outcome Settings :=
  and_then (config environ "FRED_API_KEY" None cast_str) (fun key =>
  and_then (config environ "LOG_FILE" (Some "market_triggers.log") cast_str) (fun file =>
  and_then (config environ "CHECK_INTERVAL_MINUTES" (Some 30) (cast_int rt)) (fun minutes =>
  Ok {| FRED_API_KEY := key; LOG_FILE := file; CHECK_INTERVAL_MINUTES := minutes |}))).

(** ** The program *)

Definition HEADERS : list (string * string) :=
  [ ("User-Agent",
     "Mozilla/5.0 (Windows NT 10.0; Win64; x64) "
       ++ "AppleWebKit/537.36 (KHTML, like Gecko) "
       ++ "Chrome/115.0 Safari/537.36");
    ("Accept", "application/json,text/plain,*/*");
    ("Accept-Language", "en-US,en;q=0.9") ].

Definition VIX_URL : string :=
  "https://query1.finance.yahoo.com/v8/finance/chart/^VIX".

Definition SP500_URL : string :=
  "https://query1.finance.yahoo.com/v8/finance/chart/^GSPC?range=1y&interval=1d".

Definition fred_url (series key : string) : string :=
  "https://api.stlouisfed.org/fred/series/observations?series_id=" ++ series
    ++ "&api_key=" ++ key ++ "&file_type=json".

Section Program.

Context (rt : Runtime).

(** The state after one more line in the log file. *)
Definition logged (s : State) (message : string) : State :=
  {| journal :=
       (journal s
          ++ [ {| stamp := clock rt (List.length (journal s)); text := message |} ])%list;
     sent := sent s;
     slept := slept s |}.

(** The state after one more request on the wire. *)
Definition asked (s : State) (req : Request) : State :=
  {| journal := journal s; sent := (sent s ++ [req])%list; slept := slept s |}.

(** [log(message)], lines 27-33: one timestamped line appended to the file
    (and printed). *)
Definition log (message : string) : M unit :=
  fun s => (Ok tt, logged s message).

(** [requests.get(url, headers=..., timeout=...)]. *)
Definition requests_get (req : Request) : M Response :=
  fun s =>
    match network rt (List.length (sent s)) req with
    | Delivered r => (Ok r, asked s req)
    | Failed detail => (Raise (Builtin RequestException detail), asked s req)
    end.

(** [response.json()]. *)
Definition response_json (r : Response) : outcome value :=
  match json_loads rt (content r) with
  | inr v => Ok v
  | inl detail => Raise (Builtin JSONDecodeError detail)
  end.

(** The longest sleep, in seconds, that fits the interpreter's signed
    64-bit count of nanoseconds: 2^63 - 1 over 10^9, rounded down. *)
Definition SLEEP_MAX : Z := 9223372036.

(** [time.sleep(seconds)] for an [int]: the length is first converted to
    nanoseconds, which raises [OverflowError] outside the 64-bit range, and
    then refused with [ValueError] when negative. *)
Definition sleep (seconds : Z) : M unit :=
  fun s =>
    if (seconds <? - SLEEP_MAX) || (SLEEP_MAX <? seconds)
    then (Raise (Builtin OverflowError "timestamp too large to convert to C _PyTime_t"), s)
    else if seconds <? 0
    then (Raise (Builtin ValueError "sleep length must be non-negative"), s)
    else (Ok tt,
          {| journal := journal s; sent := sent s; slept := (slept s ++ [seconds])%list |}).

(** The request [get] puts on the wire, line 46. *)
Definition get_request (u : string) (tmo : Z) : Request :=
  {| url := u; headers := Some HEADERS; timeout := Some tmo |}.

(** [get(url, timeout=30)], lines 36-49. *)
Definition get (u : string) (tmo : Z) : M value :=
  response <- requests_get (get_request u tmo) ;;
  if negb (status_code response =? 200)
  then raise (HTTPError (status_code response) (Some (str_bytes rt (content response))))
  else lift (response_json response).

(** [str(x)], as an f-string field without format applies it. *)
Definition py_str (v : value) : string :=
  match v with
  | VNone => "None"
  | VBool b => if b then "True" else "False"
  | VInt z => str_int z
  | VFloat f => repr_float rt f
  | VStr s => s
  | VList _ | VDict _ => repr_compound rt v
  end.

(** [format(x, ".2f")]: an [int] goes through [float]. *)
Definition py_format_2f (v : value) : outcome string :=
  match as_number v with
  | Some (NFloat f) => Ok (format_2f rt f)
  | Some (NInt z) =>
      match float_of_Z z with
      | Some f => Ok (format_2f rt f)
      | None => Raise (Builtin OverflowError "int too large to convert to float")
      end
  | None =>
      match v with
      | VStr _ => Raise (Builtin ValueError "Unknown format code 'f' for object of type 'str'")
      | _ =>
          Raise (Builtin TypeError
            ("unsupported format string passed to " ++ type_name v ++ ".__format__"))
      end
  end.

(** [float(x)]. *)
Definition py_float (v : value) : outcome float :=
  match v with
  | VStr s =>
      match float_of_str rt s with
      | Some f => Ok f
      | None =>
          Raise (Builtin ValueError ("could not convert string to float: " ++ repr_str s))
      end
  | VFloat f => Ok f
  | VInt z =>
      match float_of_Z z with
      | Some f => Ok f
      | None => Raise (Builtin OverflowError "int too large to convert to float")
      end
  | VBool b => Ok (if b then one else zero)
  | _ =>
      Raise (Builtin TypeError
        ("float() argument must be a string or a real number, not '"
           ++ type_name v ++ "'"))
  end.

(** [data["chart"]["result"][0]["meta"]["regularMarketPrice"]], line 56. *)
Definition vix_path (data : value) : outcome value :=
  and_then (getitem_key data "chart") (fun chart =>
  and_then (getitem_key chart "result") (fun result =>
  and_then (getitem_index result 0) (fun first =>
  and_then (getitem_key first "meta") (fun meta =>
  getitem_key meta "regularMarketPrice")))).

(** The [try] block of [check_vix], lines 55-57. *)
Definition check_vix_body : M value :=
  data <- get VIX_URL 30 ;;
  vix <- lift (vix_path data) ;;
  ret vix.

(** [check_vix], lines 52-60. *)
Definition check_vix : M value :=
  try_except check_vix_body
    (fun e => log ("Error fetching VIX: " ++ exn_str e) ;;; ret VNone).

(** [data["chart"]["result"][0]["indicators"]["quote"][0]["close"]],
    line 67. *)
Definition closes_path (data : value) : outcome value :=
  and_then (getitem_key data "chart") (fun chart =>
  and_then (getitem_key chart "result") (fun result =>
  and_then (getitem_index result 0) (fun first =>
  and_then (getitem_key first "indicators") (fun indicators =>
  and_then (getitem_key indicators "quote") (fun quote =>
  and_then (getitem_index quote 0) (fun q0 =>
  getitem_key q0 "close")))))).

(** Lines 68-73: what the fetcher makes of the [close] member. *)
Definition sp500_of_closes (raw : value) : outcome (option (value * float)) :=
  and_then (py_iter raw) (fun items =>
  let closes := filter is_not_None items in
  if (200 <=? List.length closes)%nat
  then
    and_then (py_sum (slice_last 200 closes)) (fun total =>
    and_then (py_truediv_200 total) (fun ma200 =>
    and_then (getitem_index (VList closes) (-1)) (fun last_price =>
    Ok (Some (last_price, ma200)))))
  else Ok None).

(** The [try] block of [check_sp500_200ma], lines 66-73. *)
Definition check_sp500_200ma_body : M (option (value * float)) :=
  data <- get SP500_URL 30 ;;
  raw <- lift (closes_path data) ;;
  lift (sp500_of_closes raw).

(** [check_sp500_200ma], lines 63-76. *)
Definition check_sp500_200ma : M (option (value * float)) :=
  try_except check_sp500_200ma_body
    (fun e => log ("Error fetching S&P 500 data: " ++ exn_str e) ;;; ret None).

(** [requests.get(url).json()["observations"][-1]], lines 86 and 87: the
    request goes to [requests.get] itself, with the URL alone. *)
Definition fred_request (u : string) : Request :=
  {| url := u; headers := None; timeout := None |}.

Definition fred_last_observation (u : string) : M value :=
  response <- requests_get (fred_request u) ;;
  lift (and_then (response_json response) (fun data =>
        and_then (getitem_key data "observations") (fun obs =>
        getitem_index obs (-1)))).

(** The [try] block of [check_yield_curve], lines 84-91. *)
Definition check_yield_curve_body (key : string) : M (option (float * float * float)) :=
  data_2y <- fred_last_observation (fred_url "DGS2" key) ;;
  data_10y <- fred_last_observation (fred_url "DGS10" key) ;;
  y2 <- lift (and_then (getitem_key data_2y "value") py_float) ;;
  y10 <- lift (and_then (getitem_key data_10y "value") py_float) ;;
  let spread := (y10 - y2)%float in
  ret (Some (y2, y10, spread)).

(** [check_yield_curve], lines 79-94. *)
Definition check_yield_curve (cfg : Settings) : M (option (float * float * float)) :=
  if str_is_empty (FRED_API_KEY cfg)
  then ret None
  else
    try_except (check_yield_curve_body (FRED_API_KEY cfg))
      (fun e => log ("Error fetching yield curve: " ++ exn_str e) ;;; ret None).

(** Lines 103-109 of [run_monitor]. *)
Definition vix_block (vix : value) : M unit :=
  if truthy vix
  then
    above45 <- lift (py_gt vix (VInt 45)) ;;
    if above45
    then log ("VIX ALERT: " ++ py_str vix ++ " (Possible Capitulation Trigger)")
    else
      above25 <- lift (py_gt vix (VInt 25)) ;;
      if above25
      then log ("VIX Warning: " ++ py_str vix ++ " (Crash Phase Trigger)")
      else log ("VIX Normal: " ++ py_str vix)
  else ret tt.

(** Lines 113-118: a tuple of two items is always true. *)
Definition sp500_block (sp500 : option (value * float)) : M unit :=
  match sp500 with
  | Some (price, ma200) =>
      below <- lift (py_lt price (VFloat ma200)) ;;
      if below
      then
        p <- lift (py_format_2f price) ;;
        log ("S&P 500 Below 200MA: Price=" ++ p ++ ", MA200=" ++ format_2f rt ma200)
      else
        p <- lift (py_format_2f price) ;;
        log ("S&P 500 Above 200MA: Price=" ++ p ++ ", MA200=" ++ format_2f rt ma200)
  | None => ret tt
  end.

(** Lines 122-129: a tuple of three items is always true. *)
Definition yield_block (yc : option (float * float * float)) : M unit :=
  match yc with
  | Some (y2, y10, spread) =>
      if (spread <? -0.75)%float
      then
        log ("Yield Curve Deep Inversion: 2y=" ++ repr_float rt y2 ++ "%, 10y="
               ++ repr_float rt y10 ++ "%, Spread=" ++ format_2f rt spread ++ "%")
      else log ("Yield Curve Normal/Steepening: Spread=" ++ format_2f rt spread ++ "%")
  | None => ret tt
  end.

(** One turn of the [while True] loop, lines 101-132. *)
Definition cycle (cfg : Settings) : M unit :=
  vix <- check_vix ;;
  vix_block vix ;;;
  sp500 <- check_sp500_200ma ;;
  sp500_block sp500 ;;;
  yc <- check_yield_curve cfg ;;
  yield_block yc ;;;
  sleep (CHECK_INTERVAL_MINUTES cfg * 60).

Fixpoint cycles (cfg : Settings) (n : nat) : M unit :=
  match n with
  | O => ret tt
  | S n' => cycle cfg ;;; cycles cfg n'
  end.

(** [run_monitor] observed over its first [n] turns: the loop itself never
    ends. *)
Definition run_monitor (cfg : Settings) (n : nat) : M unit :=
  log "=== Market Trigger Monitor Started ===" ;;;
  cycles cfg n.

(** The module from its first line: the settings are read when the module
    is loaded, then [run_monitor] starts. *)
Definition main (environ : string -> option string) (n : nat) : outcome unit * State :=
  match load_settings rt environ with
  | Ok cfg => run_monitor cfg n initial
  | Raise e => (Raise e, initial)
  end.

End Program.

(** ** Shapes of the quote document *)

(** A key of the path [chart.result[0].meta.regularMarketPrice] is missing
    from a document whose members above that key are in place. *)
Inductive vix_key_missing : value -> string -> Prop :=
| missing_chart o :
    dict_get o "chart" = None ->
    vix_key_missing (VDict o) "chart"
| missing_result o chart :
    dict_get o "chart" = Some (VDict chart) ->
    dict_get chart "result" = None ->
    vix_key_missing (VDict o) "result"
| missing_meta o chart result first :
    dict_get o "chart" = Some (VDict chart) ->
    dict_get chart "result" = Some result ->
    getitem_index result 0 = Ok (VDict first) ->
    dict_get first "meta" = None ->
    vix_key_missing (VDict o) "meta"
| missing_price o chart result first meta :
    dict_get o "chart" = Some (VDict chart) ->
    dict_get chart "result" = Some result ->
    getitem_index result 0 = Ok (VDict first) ->
    dict_get first "meta" = Some (VDict meta) ->
    dict_get meta "regularMarketPrice" = None ->
    vix_key_missing (VDict o) "regularMarketPrice".

(** ** The moving average in the specification's words *)

(** A daily close as the chart document carries it: a float, or null. *)
Definition close_value (c : option float) : value :=
  match c with Some f => VFloat f | None => VNone end.

(** The valid closes of a series: the nulls removed, the order kept. *)
Fixpoint valid_closes (l : list (option float)) : list float :=
  match l with
  | [] => []
  | Some f :: l' => f :: valid_closes l'
  | None :: l' => valid_closes l'
  end.

Definition float_sum (w : list float) : float := fold_left PrimFloat.add w zero.



(** ** What a computation adds to the state *)

(** The state [s] with more lines, more requests and more sleeps behind
    what it holds. *)
Definition effect (s : State) (lines : list LogEntry) (reqs : list Request)
    (naps : list Z) : State :=
  {| journal := (journal s ++ lines)%list;
     sent := (sent s ++ reqs)%list;
     slept := (slept s ++ naps)%list |}.

(** The three indicators of a turn of the loop, each the fetcher followed
    by its block of [run_monitor]. *)
Definition vix_indicator (rt : Runtime) : M unit :=
  vix <- check_vix rt ;; vix_block rt vix.

Definition sp500_indicator (rt : Runtime) : M unit :=
  sp500 <- check_sp500_200ma rt ;; sp500_block rt sp500.

Definition yield_indicator (rt : Runtime) (cfg : Settings) : M unit :=
  yc <- check_yield_curve rt cfg ;; yield_block rt yc.

(** The requests of the yield-curve fetcher, in the order of lines 86-87;
    none without a key. *)
Definition fred_requests (cfg : Settings) : list Request :=
  if str_is_empty (FRED_API_KEY cfg) then []
  else [ fred_request (fred_url "DGS2" (FRED_API_KEY cfg));
         fred_request (fred_url "DGS10" (FRED_API_KEY cfg)) ].

(** The requests of a whole turn, in the order the loop makes them. *)
Definition cycle_requests (cfg : Settings) : list Request :=
  (get_request VIX_URL 30 :: get_request SP500_URL 30 :: fred_requests cfg)%list.

(** The value of the last observation of a series document, as a float:
    [float(data["observations"][-1]["value"])]. *)
Definition last_value (rt : Runtime) (data : value) : outcome float :=
  and_then (getitem_key data "observations") (fun obs =>
  and_then (getitem_index obs (-1)) (fun o =>
  and_then (getitem_key o "value") (py_float rt))).

(** The default a setting falls back on. *)
Definition or_default {A : Type} (o : option A) (d : A) : A :=
  match o with Some a => a | None => d end.

(** ** Worlds to run the program in *)

(** Runtimes built from a handful of replies, with the decoder, the number
    parsers and the number formats given as tables over the texts and floats
    that occur in them. *)
Module Fixture.

Definition q (s : string) : string := dquote ++ s ++ dquote.

Fixpoint join (sep : string) (l : list string) : string :=
  match l with
  | [] => ""
  | [x] => x
  | x :: l' => x ++ sep ++ join sep l'
  end.

Fixpoint lookup {A : Type} (k : string) (t : list (string * A)) : option A :=
  match t with
  | [] => None
  | (k', a) :: t' => if String.eqb k' k then Some a else lookup k t'
  end.

Fixpoint lookup_float (f : float) (t : list (float * string)) : string :=
  match t with
  | [] => "?"
  | (g, r) :: t' => if PrimFloat.eqb g f then r else lookup_float f t'
  end.

(** A quote document: the JSON text and what it decodes to. *)
Definition vix_body (price : string) : string :=
  "{" ++ q "chart" ++ ":{" ++ q "result" ++ ":[{" ++ q "meta" ++ ":{"
    ++ q "regularMarketPrice" ++ ":" ++ price ++ "}}]}}".

Definition vix_doc (price : value) : value :=
  VDict [("chart", VDict [("result",
    VList [VDict [("meta", VDict [("regularMarketPrice", price)])]])])].

(** A chart document with the given closes. *)
Definition closes_body (items : list string) : string :=
  "{" ++ q "chart" ++ ":{" ++ q "result" ++ ":[{" ++ q "indicators" ++ ":{"
    ++ q "quote" ++ ":[{" ++ q "close" ++ ":[" ++ join "," items ++ "]}]}}]}}".

Definition closes_doc (items : list value) : value :=
  VDict [("chart", VDict [("result",
    VList [VDict [("indicators", VDict [("quote",
      VList [VDict [("close", VList items)]])])]])])].

(** A series document whose last observation has the given value. *)
Definition fred_body (v : string) : string :=
  "{" ++ q "observations" ++ ":[{" ++ q "value" ++ ":" ++ q v ++ "}]}".

Definition fred_doc (v : string) : value :=
  VDict [("observations", VList [VDict [("value", VStr v)]])].

Definition key : string := "demo".

Definition settings (k : string) : Settings :=
  {| FRED_API_KEY := k; LOG_FILE := "market_triggers.log"; CHECK_INTERVAL_MINUTES := 30 |}.

Definition float_texts : list (string * float) :=
  [ ("4.50", 4.5%float); ("3.75", 3.75%float); ("5.00", 5%float); ("4.00", 4%float) ].

Definition float_reprs : list (float * string) :=
  [ (50%float, "50.0"); (45%float, "45.0"); (25%float, "25.0");
    (4.5%float, "4.5"); (3.75%float, "3.75"); (5%float, "5.0"); (4%float, "4.0") ].

Definition float_2f : list (float * string) :=
  [ ((-0.75)%float, "-0.75"); ((-1)%float, "-1.00");
    (3900%float, "3900.00"); (4000%float, "4000.00"); (4100%float, "4100.00") ].

(** The world in which the four endpoints answer as given and [docs] are the
    bodies that decode. *)
Definition world (vix sp500 dgs2 dgs10 : Reply) (docs : list (string * value)) : Runtime :=
  {| network := fun _ req =>
       if String.eqb (url req) VIX_URL then vix
       else if String.eqb (url req) SP500_URL then sp500
       else if String.eqb (url req) (fred_url "DGS2" key) then dgs2
       else if String.eqb (url req) (fred_url "DGS10" key) then dgs10
       else Failed "Name or service not known";
     clock := fun _ => "2024-01-02 15:00:00 UTC";
     json_loads := fun body =>
       match lookup body docs with
       | Some v => inr v
       | None => inl "Expecting value: line 1 column 1 (char 0)"
       end;
     float_of_str := fun s => lookup s float_texts;
     int_of_str := fun s => lookup s [("30", 30); ("5", 5)];
     repr_float := fun f => lookup_float f float_reprs;
     format_2f := fun f => lookup_float f float_2f;
     str_bytes := fun b => "b'" ++ b ++ "'";
     repr_compound := fun _ => "?" |}.

Definition ok (body : string) : Reply :=
  Delivered {| status_code := 200; content := body |}.

Definition down : Reply := Failed "Connection refused".

(** One hundred closes at 4100 followed by one hundred at 3900, a null in
    between. *)
Definition closes_200_texts : list string :=
  (repeat "4100.0" 100 ++ ["null"] ++ repeat "3900.0" 100)%list.

Definition closes_200 : list (option float) :=
  (repeat (Some 4100%float) 100 ++ [None] ++ repeat (Some 3900%float) 100)%list.

(** The end-to-end scenario of the specification: VIX at 50, closes that
    average 4000 with the last one at 3900, yields 5.00 and 4.00. *)
Definition scenario : Runtime :=
  world (ok (vix_body "50.0")) (ok (closes_body closes_200_texts))
        (ok (fred_body "5.00")) (ok (fred_body "4.00"))
        [ (vix_body "50.0", vix_doc (VFloat 50));
          (closes_body closes_200_texts, closes_doc (map close_value closes_200));
          (fred_body "5.00", fred_doc "5.00");
          (fred_body "4.00", fred_doc "4.00") ].

(** Quote documents: the price is null; the [meta] member is missing. *)
Definition vix_null : Runtime :=
  world (ok (vix_body "null")) down down down [ (vix_body "null", vix_doc VNone) ].

Definition no_meta_body : string :=
  "{" ++ q "chart" ++ ":{" ++ q "result" ++ ":[{}]}}".

Definition no_meta_doc : value :=
  VDict [("chart", VDict [("result", VList [VDict []])])].

Definition vix_no_meta : Runtime :=
  world (ok no_meta_body) down down down [ (no_meta_body, no_meta_doc) ].

(** The scenario with the VIX quoted at 0. *)
Definition vix_zero : Runtime :=
  world (ok (vix_body "0")) (ok (closes_body closes_200_texts))
        (ok (fred_body "5.00")) (ok (fred_body "4.00"))
        [ (vix_body "0", vix_doc (VInt 0));
          (closes_body closes_200_texts, closes_doc (map close_value closes_200));
          (fred_body "5.00", fred_doc "5.00");
          (fred_body "4.00", fred_doc "4.00") ].

(** A chart with 199 closes and a null. *)
Definition closes_199_texts : list string := ("null" :: repeat "3900.0" 199)%list.

Definition closes_199 : list (option float) := (None :: repeat (Some 3900%float) 199)%list.

Definition history_199 : Runtime :=
  world down (ok (closes_body closes_199_texts)) down down
        [ (closes_body closes_199_texts, closes_doc (map close_value closes_199)) ].

(** The yields 4.50 and 3.75. *)
Definition boundary : Runtime :=
  world down down (ok (fred_body "4.50")) (ok (fred_body "3.75"))
        [ (fred_body "4.50", fred_doc "4.50"); (fred_body "3.75", fred_doc "3.75") ].

(** The quote endpoint answers 201 Created with a JSON body. *)
Definition created : Runtime :=
  world (Delivered {| status_code := 201; content := "[1]" |}) down down down
        [ ("[1]", VList [VInt 1]) ].

(** An outage: the quote endpoint is unreachable for the VIX, answers 503
    for the index, and the 2-year series ends on FRED's marker for a day
    without value. *)
Definition outage : Runtime :=
  world down (Delivered {| status_code := 503; content := "Service Unavailable" |})
        (ok (fred_body ".")) (ok (fred_body "4.00"))
        [ (fred_body ".", fred_doc "."); (fred_body "4.00", fred_doc "4.00") ].

(** The VIX quoted as a text, as a quote document may carry it. *)
Definition vix_text : Runtime :=
  world (ok (vix_body (q "18.5"))) down down down
        [ (vix_body (q "18.5"), vix_doc (VStr "18.5")) ].

(** FRED answers with a server-error status and a well-formed series. *)
Definition fred_500 : Runtime :=
  world down down
        (Delivered {| status_code := 500; content := fred_body "4.50" |})
        (Delivered {| status_code := 500; content := fred_body "3.75" |})
        [ (fred_body "4.50", fred_doc "4.50"); (fred_body "3.75", fred_doc "3.75") ].

(** The 2-year series answers and the 10-year series is unreachable. *)
Definition fred_half : Runtime :=
  world down down (ok (fred_body "4.50")) down
        [ (fred_body "4.50", fred_doc "4.50") ].

(** Nothing answers. *)
Definition blackout : Runtime := world down down down down [].

End Fixture.

(** * Properties *)

(** ** The numeric tower on sample values *)

Example float_of_Z_rounds : float_of_Z 9007199254740993 = Some 9007199254740992%float.
Proof. vm_compute. reflexivity. Qed.

Example int_truediv_small : int_truediv 780000 200 = Some 3900%float.
Proof. vm_compute. reflexivity. Qed.

Example int_truediv_inexact : int_truediv 1 200 = Some (1 / 200)%float.
Proof. vm_compute. reflexivity. Qed.

Example int_float_exact_compare :
  num_lt (NFloat 9007199254740992%float) (NInt 9007199254740993) = true.
Proof. vm_compute. reflexivity. Qed.

(** ** The end-to-end scenario *)

(** The scenario, run for one turn of the loop. *)
Example scenario_log :
  map text (journal (snd (run_monitor Fixture.scenario (Fixture.settings Fixture.key) 1 initial)))
  = [ "=== Market Trigger Monitor Started ===";
      "VIX ALERT: 50.0 (Possible Capitulation Trigger)";
      "S&P 500 Below 200MA: Price=3900.00, MA200=4000.00";
      "Yield Curve Deep Inversion: 2y=5.0%, 10y=4.0%, Spread=-1.00%" ].
Proof. vm_compute. reflexivity. Qed.

Example scenario_sleep :
  slept (snd (run_monitor Fixture.scenario (Fixture.settings Fixture.key) 1 initial)) = [1800].
Proof. vm_compute. reflexivity. Qed.

(** ** Running computations *)

Lemma try_except_logs {A : Type} (rt : Runtime) (body : M A) (prefix : string) (d : A)
    (s : State) :
  try_except body (fun e => log rt (prefix ++ exn_str e) ;;; ret d) s
  = match body s with
    | (Ok a, s') => (Ok a, s')
    | (Raise e, s') => (Ok d, logged rt s' (prefix ++ exn_str e))
    end.
Proof.
  unfold try_except, bind, log, ret.
  destruct (body s) as [[a | e] s']; reflexivity.
Qed.

Lemma try_except_total {A : Type} (rt : Runtime) (body : M A) (prefix : string) (d : A)
    (s : State) :
  exists r s', try_except body (fun e => log rt (prefix ++ exn_str e) ;;; ret d) s = (Ok r, s').
Proof.
  rewrite try_except_logs.
  destruct (body s) as [[a | e] s']; eauto.
Qed.

Lemma try_except_no_data {A : Type} (rt : Runtime) (body : M A) (prefix : string) (d : A)
    (s s1 : State) (e : exn) :
  body s = (Raise e, s1) ->
  try_except body (fun e => log rt (prefix ++ exn_str e) ;;; ret d) s
  = (Ok d, logged rt s1 (prefix ++ exn_str e)).
Proof.
  intros H. rewrite try_except_logs, H. reflexivity.
Qed.

Lemma check_yield_curve_keyed (rt : Runtime) (cfg : Settings) (s : State) :
  str_is_empty (FRED_API_KEY cfg) = false ->
  check_yield_curve rt cfg s
  = try_except (check_yield_curve_body rt (FRED_API_KEY cfg))
      (fun e => log rt ("Error fetching yield curve: " ++ exn_str e) ;;; ret None) s.
Proof.
  intros H. unfold check_yield_curve. rewrite H. reflexivity.
Qed.

(** ** Failure isolation *)

(** None of the three fetchers ever hands an exception to its caller:
    whatever the network answers and whatever the body of the fetcher does,
    the fetcher returns normally, and when its [try] block raised it returns
    the no-data result. *)
Lemma fetchers_never_raise (rt : Runtime) (cfg : Settings) (s : State) :
  (exists v s', check_vix rt s = (Ok v, s')) /\
  (exists r s', check_sp500_200ma rt s = (Ok r, s')) /\
  (exists r s', check_yield_curve rt cfg s = (Ok r, s')) /\
  (forall e s1, check_vix_body rt s = (Raise e, s1) ->
     fst (check_vix rt s) = Ok VNone) /\
  (forall e s1, check_sp500_200ma_body rt s = (Raise e, s1) ->
     fst (check_sp500_200ma rt s) = Ok None) /\
  (forall e s1, check_yield_curve_body rt (FRED_API_KEY cfg) s = (Raise e, s1) ->
     fst (check_yield_curve rt cfg s) = Ok None).
Proof.
  repeat split.
  - apply try_except_total.
  - apply try_except_total.
  - unfold check_yield_curve.
    destruct (str_is_empty (FRED_API_KEY cfg)).
    + exists None, s. reflexivity.
    + apply try_except_total.
  - intros e s1 H. unfold check_vix.
    rewrite (try_except_no_data _ _ _ _ _ _ _ H). reflexivity.
  - intros e s1 H. unfold check_sp500_200ma.
    rewrite (try_except_no_data _ _ _ _ _ _ _ H). reflexivity.
  - intros e s1 H. unfold check_yield_curve.
    destruct (str_is_empty (FRED_API_KEY cfg)); [reflexivity |].
    rewrite (try_except_no_data _ _ _ _ _ _ _ H). reflexivity.
Qed.

(** ** The HTTP wrapper *)

Lemma get_delivered_200 (rt : Runtime) (u : string) (tmo : Z) (s : State)
    (r : Response) (data : value) :
  network rt (List.length (sent s)) (get_request u tmo) = Delivered r ->
  status_code r = 200 ->
  json_loads rt (content r) = inr data ->
  get rt u tmo s = (Ok data, asked s (get_request u tmo)).
Proof.
  intros Hn Hs Hj.
  unfold get, bind, requests_get. rewrite Hn, Hs. simpl.
  unfold lift, response_json. rewrite Hj. reflexivity.
Qed.

(** ** The VIX fetcher on a null price and on a missing key *)

Lemma vix_key_missing_raises (data : value) (k : string) :
  vix_key_missing data k -> vix_path data = Raise (Builtin KeyError (repr_str k)).
Proof.
  intros H. unfold vix_path.
  destruct H; simpl;
    repeat match goal with
           | E : _ = _ |- _ => rewrite E; simpl
           end; reflexivity.
Qed.

(** C10: when the quote document has the whole path
    [chart.result[0].meta.regularMarketPrice] and the price is null, the VIX
    fetcher returns no data and writes nothing to the log; when a key of the
    path is missing it returns no data and writes one line that starts with
    "Error fetching VIX". *)
Theorem vix_null_silent_missing_key_logged (rt : Runtime) (s : State)
    (r : Response) (data : value) :
  network rt (List.length (sent s)) (get_request VIX_URL 30) = Delivered r ->
  status_code r = 200 ->
  json_loads rt (content r) = inr data ->
  (vix_path data = Ok VNone ->
     check_vix rt s = (Ok VNone, asked s (get_request VIX_URL 30)) /\
     journal (snd (check_vix rt s)) = journal s) /\
  (forall k, vix_key_missing data k ->
     check_vix rt s
     = (Ok VNone,
        logged rt (asked s (get_request VIX_URL 30))
          ("Error fetching VIX: " ++ repr_str k)) /\
     map text (journal (snd (check_vix rt s)))
     = app (map text (journal s)) ["Error fetching VIX: " ++ repr_str k]).
Proof.
  intros Hn Hs Hj.
  pose proof (get_delivered_200 rt VIX_URL 30 s r data Hn Hs Hj) as Hget.
  assert (Hrun : forall o, vix_path data = o ->
            check_vix_body rt s = (o, asked s (get_request VIX_URL 30))).
  { intros o Ho. unfold check_vix_body, bind. rewrite Hget.
    unfold lift. rewrite Ho. destruct o; reflexivity. }
  split.
  - intros Hp. unfold check_vix. rewrite try_except_logs, (Hrun _ Hp).
    split; reflexivity.
  - intros k Hk. apply vix_key_missing_raises in Hk.
    unfold check_vix. rewrite try_except_logs, (Hrun _ Hk).
    split; [reflexivity |].
    simpl. rewrite map_app. reflexivity.
Qed.

Lemma vix_null_silent_missing_key_logged_witness :
  (check_vix Fixture.vix_null initial
     = (Ok VNone, asked initial (get_request VIX_URL 30)) /\
   journal (snd (check_vix Fixture.vix_null initial)) = journal initial) /\
  map text (journal (snd (check_vix Fixture.vix_no_meta initial)))
  = app (map text (journal initial)) ["Error fetching VIX: " ++ repr_str "meta"].
Proof.
  split.
  - refine (proj1 (vix_null_silent_missing_key_logged Fixture.vix_null initial
                     {| status_code := 200; content := Fixture.vix_body "null" |}
                     (Fixture.vix_doc VNone) _ _ _) _);
      vm_compute; reflexivity.
  - refine (proj2 (proj2 (vix_null_silent_missing_key_logged Fixture.vix_no_meta initial
                     {| status_code := 200; content := Fixture.no_meta_body |}
                     Fixture.no_meta_doc _ _ _) "meta" _)).
    + vm_compute. reflexivity.
    + reflexivity.
    + vm_compute. reflexivity.
    + eapply missing_meta with (first := []); reflexivity.
Defined.

(** C5, as the code has it: a response with a success status other than 200
    makes [get] raise although its body is well-formed JSON. *)
Lemma get_raises_on_201 :
  network Fixture.created 0 (get_request VIX_URL 30)
    = Delivered {| status_code := 201; content := "[1]" |} /\
  json_loads Fixture.created "[1]" = inr (VList [VInt 1]) /\
  get Fixture.created VIX_URL 30 initial
    = (Raise (HTTPError 201 (Some "b'[1]'")), asked initial (get_request VIX_URL 30)).
Proof. repeat split. Qed.

(** C5, amended: once a response is received, [get] raises [HTTPError] with
    the status code and the body exactly when the status is not 200; on a
    status 200 whose body decodes it returns the decoded body unchanged. *)
Theorem get_raises_iff_not_200 (rt : Runtime) (u : string) (tmo : Z) (s : State)
    (r : Response) :
  network rt (List.length (sent s)) (get_request u tmo) = Delivered r ->
  (status_code r <> 200 ->
     get rt u tmo s
     = (Raise (HTTPError (status_code r) (Some (str_bytes rt (content r)))),
        asked s (get_request u tmo))) /\
  (status_code r = 200 ->
     forall data, json_loads rt (content r) = inr data ->
       get rt u tmo s = (Ok data, asked s (get_request u tmo))) /\
  ((exists status message, fst (get rt u tmo s) = Raise (HTTPError status message))
   <-> status_code r <> 200).
Proof.
  intros Hn.
  assert (Hne : status_code r <> 200 ->
            get rt u tmo s
            = (Raise (HTTPError (status_code r) (Some (str_bytes rt (content r)))),
               asked s (get_request u tmo))).
  { intros Hs. unfold get, bind, requests_get. rewrite Hn.
    apply Z.eqb_neq in Hs. rewrite Hs. reflexivity. }
  split; [exact Hne | split].
  - intros Hs data Hj. exact (get_delivered_200 rt u tmo s r data Hn Hs Hj).
  - split.
    + intros (status & message & H) Hs.
      unfold get, bind, requests_get in H. rewrite Hn, Hs in H. simpl in H.
      unfold lift, response_json in H.
      destruct (json_loads rt (content r)); simpl in H; discriminate.
    + intros Hs. rewrite (Hne Hs). simpl. eauto.
Qed.

Lemma get_raises_iff_not_200_witness :
  get Fixture.created VIX_URL 30 initial
  = (Raise (HTTPError 201 (Some "b'[1]'")), asked initial (get_request VIX_URL 30)).
Proof.
  refine (proj1 (get_raises_iff_not_200 Fixture.created VIX_URL 30 initial
                   {| status_code := 201; content := "[1]" |} _) _).
  - reflexivity.
  - simpl. lia.
Defined.

(** ** What goes on the wire *)

Lemma sent_logged (rt : Runtime) (s : State) (m : string) : sent (logged rt s m) = sent s.
Proof. reflexivity. Qed.

Lemma get_sent (rt : Runtime) (u : string) (tmo : Z) (s : State) :
  snd (get rt u tmo s) = asked s (get_request u tmo).
Proof.
  unfold get, bind, requests_get.
  destruct (network rt (List.length (sent s)) (get_request u tmo)) as [r | d]; simpl;
    [| reflexivity].
  destruct (negb (status_code r =? 200)); [reflexivity |].
  unfold lift. reflexivity.
Qed.

Lemma fred_last_observation_sent (rt : Runtime) (u : string) (s : State) :
  snd (fred_last_observation rt u s) = asked s (fred_request u).
Proof.
  unfold fred_last_observation, bind, requests_get.
  destruct (network rt (List.length (sent s)) (fred_request u)); reflexivity.
Qed.

(** C9, as the code has it: with a key configured, the two FRED requests go
    out with the URL alone, without the header set and without a timeout. *)
Lemma fred_requests_are_bare :
  sent (snd (check_yield_curve Fixture.scenario (Fixture.settings Fixture.key) initial))
  = [ {| url := fred_url "DGS2" Fixture.key; headers := None; timeout := None |};
      {| url := fred_url "DGS10" Fixture.key; headers := None; timeout := None |} ].
Proof. vm_compute. reflexivity. Qed.

Lemma check_vix_body_sent (rt : Runtime) (s : State) :
  snd (check_vix_body rt s) = asked s (get_request VIX_URL 30).
Proof.
  unfold check_vix_body, bind.
  pose proof (get_sent rt VIX_URL 30 s) as H.
  destruct (get rt VIX_URL 30 s) as [[data | e] s1]; simpl in H; subst s1;
    [| reflexivity].
  unfold lift. destruct (vix_path data); reflexivity.
Qed.

Lemma check_sp500_200ma_body_sent (rt : Runtime) (s : State) :
  snd (check_sp500_200ma_body rt s) = asked s (get_request SP500_URL 30).
Proof.
  unfold check_sp500_200ma_body, bind.
  pose proof (get_sent rt SP500_URL 30 s) as H.
  destruct (get rt SP500_URL 30 s) as [[data | e] s1]; simpl in H; subst s1;
    [| reflexivity].
  unfold lift. destruct (closes_path data); reflexivity.
Qed.

Lemma try_except_state {A : Type} (rt : Runtime) (body : M A) (prefix : string) (d : A)
    (s : State) :
  sent (snd (try_except body (fun e => log rt (prefix ++ exn_str e) ;;; ret d) s))
  = sent (snd (body s)) /\
  slept (snd (try_except body (fun e => log rt (prefix ++ exn_str e) ;;; ret d) s))
  = slept (snd (body s)).
Proof.
  rewrite try_except_logs.
  destruct (body s) as [[a | e] s']; split; reflexivity.
Qed.

Lemma check_yield_curve_body_sent (rt : Runtime) (k : string) (s : State) :
  exists n,
    sent (snd (check_yield_curve_body rt k s))
    = app (sent s) (firstn n [fred_request (fred_url "DGS2" k);
                              fred_request (fred_url "DGS10" k)]).
Proof.
  unfold check_yield_curve_body, bind.
  pose proof (fred_last_observation_sent rt (fred_url "DGS2" k) s) as H2.
  destruct (fred_last_observation rt (fred_url "DGS2" k) s) as [[d2 | e] s1];
    simpl in H2; subst s1.
  - pose proof (fred_last_observation_sent rt (fred_url "DGS10" k)
                  (asked s (fred_request (fred_url "DGS2" k)))) as H10.
    destruct (fred_last_observation rt (fred_url "DGS10" k) _) as [[d10 | e] s2];
      simpl in H10; subst s2; exists 2%nat.
    + unfold lift, ret.
      destruct (and_then (getitem_key d2 "value") (py_float rt)); simpl;
        [destruct (and_then (getitem_key d10 "value") (py_float rt)); simpl |];
        rewrite <- app_assoc; reflexivity.
    + simpl. rewrite <- app_assoc. reflexivity.
  - exists 1%nat. reflexivity.
Qed.

(** C9, amended: every request that goes through [get] -- the VIX and the
    S&P 500 requests -- carries the fixed header set (User-Agent, Accept,
    Accept-Language) and the timeout given to [get], 30 seconds at both
    calls; the FRED requests are made outside [get] and carry no header
    set. *)
Theorem wrapper_requests_carry_headers (rt : Runtime) (cfg : Settings) (s : State) :
  map fst HEADERS = ["User-Agent"; "Accept"; "Accept-Language"] /\
  (forall u tmo,
     sent (snd (get rt u tmo s))
     = app (sent s) [ {| url := u; headers := Some HEADERS; timeout := Some tmo |} ]) /\
  sent (snd (check_vix rt s))
  = app (sent s) [ {| url := VIX_URL; headers := Some HEADERS; timeout := Some 30 |} ] /\
  sent (snd (check_sp500_200ma rt s))
  = app (sent s) [ {| url := SP500_URL; headers := Some HEADERS; timeout := Some 30 |} ] /\
  (exists l,
     sent (snd (check_yield_curve rt cfg s)) = app (sent s) l /\
     Forall (fun req => headers req = None) l).
Proof.
  split; [reflexivity |].
  split; [intros u tmo; rewrite get_sent; reflexivity |].
  split.
  { unfold check_vix.
    rewrite (proj1 (try_except_state _ _ _ _ _)), check_vix_body_sent. reflexivity. }
  split.
  { unfold check_sp500_200ma.
    rewrite (proj1 (try_except_state _ _ _ _ _)), check_sp500_200ma_body_sent.
    reflexivity. }
  unfold check_yield_curve.
  destruct (str_is_empty (FRED_API_KEY cfg)).
  - exists []. split; [simpl; rewrite app_nil_r; reflexivity | constructor].
  - rewrite (proj1 (try_except_state _ _ _ _ _)).
    destruct (check_yield_curve_body_sent rt (FRED_API_KEY cfg) s) as [n Hn].
    rewrite Hn. eexists. split; [reflexivity |].
    destruct n as [| [| [| n]]]; simpl; repeat constructor.
Qed.

(** ** Configuration *)

(** C6, on an environment without [FRED_API_KEY]: loading the module raises
    before [run_monitor] is entered; nothing is logged and nothing runs. *)
Theorem missing_key_stops_startup (rt : Runtime) (n : nat) :
  main rt (fun _ => None) n
  = (Raise (Builtin UndefinedValueError
       "FRED_API_KEY not found. Declare it as envvar or define a default value."),
     initial).
Proof. reflexivity. Qed.

(** With the key present and empty, the yield-curve fetcher returns no data
    and leaves the state as it was: no request, no line. *)
Lemma empty_key_disables_yield_curve (rt : Runtime) (cfg : Settings) (s : State) :
  FRED_API_KEY cfg = "" ->
  check_yield_curve rt cfg s = (Ok None, s).
Proof.
  intros H. unfold check_yield_curve. rewrite H. reflexivity.
Qed.

(** An environment that defines the key as the empty string starts the
    monitor with the defaults for the other two settings. *)
Lemma empty_key_starts (rt : Runtime) (n : nat) :
  main rt (fun name => if String.eqb name "FRED_API_KEY" then Some "" else None) n
  = run_monitor rt (Fixture.settings "") n initial.
Proof. reflexivity. Qed.

(** ** The monitor loop: classification of the VIX *)

(** On a number that [if vix:] lets through, the block writes one line,
    chosen by the two strict comparisons. *)
Lemma vix_block_thresholds (rt : Runtime) (s : State) (v : value) (n : number) :
  as_number v = Some n ->
  truthy v = true ->
  vix_block rt v s
  = (Ok tt,
     logged rt s
       (if num_lt (NInt 45) n
        then "VIX ALERT: " ++ py_str rt v ++ " (Possible Capitulation Trigger)"
        else if num_lt (NInt 25) n
             then "VIX Warning: " ++ py_str rt v ++ " (Crash Phase Trigger)"
             else "VIX Normal: " ++ py_str rt v)).
Proof.
  intros Hn Ht. unfold vix_block, py_gt, bind, lift, log.
  rewrite Ht, Hn.
  change (as_number (VInt 45)) with (Some (NInt 45)).
  change (as_number (VInt 25)) with (Some (NInt 25)).
  cbv beta iota.
  destruct (num_lt (NInt 45) n); [reflexivity |].
  destruct (num_lt (NInt 25) n); reflexivity.
Qed.

(** For an [int] other than 0: ALERT above 45, Warning above 25 and up to
    45, Normal up to 25. *)
Lemma vix_block_int (rt : Runtime) (s : State) (z : Z) :
  z <> 0 ->
  vix_block rt (VInt z) s
  = (Ok tt,
     logged rt s
       (if 45 <? z
        then "VIX ALERT: " ++ str_int z ++ " (Possible Capitulation Trigger)"
        else if 25 <? z
             then "VIX Warning: " ++ str_int z ++ " (Crash Phase Trigger)"
             else "VIX Normal: " ++ str_int z)).
Proof.
  intros Hz.
  apply (vix_block_thresholds rt s (VInt z) (NInt z)); [reflexivity |].
  simpl. apply Z.eqb_neq in Hz. rewrite Hz. reflexivity.
Qed.

Example vix_45_is_warning (rt : Runtime) (s : State) :
  vix_block rt (VInt 45) s = (Ok tt, logged rt s "VIX Warning: 45 (Crash Phase Trigger)") /\
  vix_block rt (VFloat 45) s
  = (Ok tt, logged rt s ("VIX Warning: " ++ repr_float rt 45 ++ " (Crash Phase Trigger)")).
Proof. split; reflexivity. Qed.

Example vix_25_is_normal (rt : Runtime) (s : State) :
  vix_block rt (VInt 25) s = (Ok tt, logged rt s "VIX Normal: 25") /\
  vix_block rt (VFloat 25) s = (Ok tt, logged rt s ("VIX Normal: " ++ repr_float rt 25)).
Proof. split; reflexivity. Qed.

Example vix_just_above_45_is_alert (rt : Runtime) (s : State) :
  vix_block rt (VFloat (next_up 45)) s
  = (Ok tt,
     logged rt s
       ("VIX ALERT: " ++ repr_float rt (next_up 45) ++ " (Possible Capitulation Trigger)")).
Proof. reflexivity. Qed.

(** C1, on the VIX value 0: the value is at most 25, and the loop writes no
    line for it at all, Normal or other, be it the [int] 0 or the [float]
    0.0. *)
Theorem vix_zero_not_classified (rt : Runtime) (s : State) :
  vix_block rt (VInt 0) s = (Ok tt, s) /\
  vix_block rt (VFloat 0) s = (Ok tt, s).
Proof. split; reflexivity. Qed.

(** ** The monitor loop: one line per indicator *)

(** A fetcher that returned no data leaves its block silent. *)
Lemma blocks_skip_no_data (rt : Runtime) (s : State) :
  vix_block rt VNone s = (Ok tt, s) /\
  sp500_block rt None s = (Ok tt, s) /\
  yield_block rt None s = (Ok tt, s).
Proof. repeat split. Qed.

(** A pair of a [float] price and the average gets one line. *)
Lemma sp500_block_one_line (rt : Runtime) (s : State) (price ma200 : float) :
  sp500_block rt (Some (VFloat price, ma200)) s
  = (Ok tt,
     logged rt s
       (if (price <? ma200)%float
        then "S&P 500 Below 200MA: Price=" ++ format_2f rt price
               ++ ", MA200=" ++ format_2f rt ma200
        else "S&P 500 Above 200MA: Price=" ++ format_2f rt price
               ++ ", MA200=" ++ format_2f rt ma200)).
Proof.
  unfold sp500_block, bind, lift, log. simpl.
  destruct (price <? ma200)%float; reflexivity.
Qed.

(** A yield-curve result gets one line. *)
Lemma yield_block_one_line (rt : Runtime) (s : State) (y2 y10 spread : float) :
  yield_block rt (Some (y2, y10, spread)) s
  = (Ok tt,
     logged rt s
       (if (spread <? -0.75)%float
        then "Yield Curve Deep Inversion: 2y=" ++ repr_float rt y2 ++ "%, 10y="
               ++ repr_float rt y10 ++ "%, Spread=" ++ format_2f rt spread ++ "%"
        else "Yield Curve Normal/Steepening: Spread=" ++ format_2f rt spread ++ "%")).
Proof.
  unfold yield_block, log.
  destruct (spread <? -0.75)%float; reflexivity.
Qed.

(** C4, on a cycle in which the VIX is quoted at 0: the fetcher yields the
    value 0, the other two indicators get their lines, and no line at all is
    written for the VIX. *)
Theorem cycle_skips_vix_zero :
  fst (check_vix Fixture.vix_zero initial) = Ok (VInt 0) /\
  map text (journal (snd (cycle Fixture.vix_zero (Fixture.settings Fixture.key) initial)))
  = [ "S&P 500 Below 200MA: Price=3900.00, MA200=4000.00";
      "Yield Curve Deep Inversion: 2y=5.0%, 10y=4.0%, Spread=-1.00%" ].
Proof. split; vm_compute; reflexivity. Qed.

(** ** The S&P 500 fetcher *)

Lemma filter_valid_closes (closes : list (option float)) :
  filter is_not_None (map close_value closes) = map VFloat (valid_closes closes).
Proof.
  induction closes as [| [f |] closes IH]; simpl; [reflexivity | f_equal; exact IH | exact IH].
Qed.

Lemma py_sum_from_floats (w : list float) (a : float) :
  py_sum_from (VFloat a) (map VFloat w) = Ok (VFloat (fold_left PrimFloat.add w a)).
Proof.
  revert a. induction w as [| f w IH]; intros a; simpl; [reflexivity | apply IH].
Qed.

Lemma py_sum_floats (w : list float) :
  w <> [] -> py_sum (map VFloat w) = Ok (VFloat (float_sum w)).
Proof.
  destruct w as [| f w]; [congruence | intros _].
  unfold py_sum, float_sum.
  change (py_sum_from (VInt 0) (map VFloat (f :: w)))
    with (py_sum_from (VFloat (zero + f)) (map VFloat w)).
  exact (py_sum_from_floats w (zero + f)%float).
Qed.

Lemma slice_last_map {A B : Type} (g : A -> B) (k : nat) (l : list A) :
  slice_last k (map g l) = map g (slice_last k l).
Proof.
  unfold slice_last. rewrite length_map. apply skipn_map.
Qed.

Lemma slice_last_length {A : Type} (k : nat) (l : list A) :
  (k <= List.length l)%nat -> List.length (slice_last k l) = k.
Proof.
  intros H. unfold slice_last. rewrite length_skipn. lia.
Qed.


Lemma nth_pred_length_last {A : Type} (l : list A) (d : A) :
  nth (List.length l - 1) l d = last l d.
Proof.
  induction l as [| a [| b l] IH]; [reflexivity | reflexivity |].
  change (last (a :: b :: l) d) with (last (b :: l) d).
  rewrite <- IH. simpl. rewrite Nat.sub_0_r. reflexivity.
Qed.

Lemma getitem_last_float (w : list float) :
  w <> [] -> getitem_index (VList (map VFloat w)) (-1) = Ok (VFloat (last w zero)).
Proof.
  intros Hw. unfold getitem_index, seq_index.
  rewrite length_map.
  assert (Hlen : (0 < List.length w)%nat) by (destruct w; [congruence | simpl; lia]).
  change (-1 <? 0) with true. cbv iota.
  assert (H1 : (0 <=? -1 + Z.of_nat (List.length w)) = true) by (apply Z.leb_le; lia).
  assert (H2 : (-1 + Z.of_nat (List.length w) <? Z.of_nat (List.length w)) = true)
    by (apply Z.ltb_lt; lia).
  rewrite H1, H2. cbv [andb].
  replace (Z.to_nat (-1 + Z.of_nat (List.length w))) with (List.length w - 1)%nat by lia.
  rewrite (nth_indep _ VNone (VFloat zero)) by (rewrite length_map; lia).
  rewrite map_nth, nth_pred_length_last. reflexivity.
Qed.

(** What lines 68-73 make of a series of floats and nulls. *)
Lemma sp500_of_float_closes (closes : list (option float)) :
  sp500_of_closes (VList (map close_value closes))
  = if (200 <=? List.length (valid_closes closes))%nat
    then Ok (Some (VFloat (last (valid_closes closes) zero),
                   (float_sum (slice_last 200 (valid_closes closes)) / 200)%float))
    else Ok None.
Proof.
  unfold sp500_of_closes. cbv [py_iter and_then].
  rewrite filter_valid_closes, length_map.
  destruct (200 <=? List.length (valid_closes closes))%nat eqn:Hlen; [| reflexivity].
  apply Nat.leb_le in Hlen.
  rewrite slice_last_map, py_sum_floats.
  2:{ intros Hnil. pose proof (slice_last_length 200 (valid_closes closes) Hlen) as Hl.
      rewrite Hnil in Hl. discriminate. }
  rewrite getitem_last_float.
  2:{ intros Hnil. rewrite Hnil in Hlen. simpl in Hlen. lia. }
  reflexivity.
Qed.




(** ** Logging of failures *)

(** C8, as the code has it: a valid chart with 199 valid closes gives no
    data and leaves the log as it was. *)
Lemma insufficient_history_is_silent :
  List.length (valid_closes Fixture.closes_199) = 199%nat /\
  check_sp500_200ma Fixture.history_199 initial
    = (Ok None, asked initial (get_request SP500_URL 30)) /\
  journal (snd (check_sp500_200ma Fixture.history_199 initial)) = [].
Proof. repeat split; vm_compute; reflexivity. Qed.

(** C8, amended: whatever exception the [try] block of a fetcher raises --
    a transport failure, an HTTP status, a document of the wrong shape -- is
    turned into the no-data result with one log line made of the fetcher's
    prefix and the text of the exception; a chart with fewer than 200 valid
    closes gives the no-data result without any log line. *)
Theorem failures_logged_short_history_silent (rt : Runtime) (cfg : Settings) (s : State) :
  (forall e s1, check_vix_body rt s = (Raise e, s1) ->
     check_vix rt s = (Ok VNone, logged rt s1 ("Error fetching VIX: " ++ exn_str e))) /\
  (forall e s1, check_sp500_200ma_body rt s = (Raise e, s1) ->
     check_sp500_200ma rt s
     = (Ok None, logged rt s1 ("Error fetching S&P 500 data: " ++ exn_str e))) /\
  (forall e s1, str_is_empty (FRED_API_KEY cfg) = false ->
     check_yield_curve_body rt (FRED_API_KEY cfg) s = (Raise e, s1) ->
     check_yield_curve rt cfg s
     = (Ok None, logged rt s1 ("Error fetching yield curve: " ++ exn_str e))) /\
  (forall raw items, py_iter raw = Ok items ->
     (List.length (filter is_not_None items) < 200)%nat ->
     sp500_of_closes raw = Ok None) /\
  (forall s1, check_sp500_200ma_body rt s = (Ok None, s1) ->
     check_sp500_200ma rt s = (Ok None, s1) /\ journal s1 = journal s).
Proof.
  split; [| split; [| split; [| split]]].
  - intros e s1 H. apply try_except_no_data. exact H.
  - intros e s1 H. apply try_except_no_data. exact H.
  - intros e s1 Hk H. rewrite (check_yield_curve_keyed rt cfg s Hk).
    apply try_except_no_data. exact H.
  - intros raw items Hi Hlt. unfold sp500_of_closes. rewrite Hi.
    apply Nat.leb_gt in Hlt. cbv [and_then]. rewrite Hlt. reflexivity.
  - intros s1 H. split.
    + unfold check_sp500_200ma. rewrite try_except_logs, H. reflexivity.
    + pose proof (check_sp500_200ma_body_sent rt s) as Hs.
      rewrite H in Hs. simpl in Hs. subst s1. reflexivity.
Qed.

Lemma failures_logged_short_history_silent_witness :
  check_sp500_200ma Fixture.outage initial
    = (Ok None,
       logged Fixture.outage (asked initial (get_request SP500_URL 30))
         ("Error fetching S&P 500 data: "
            ++ exn_str (HTTPError 503 (Some "b'Service Unavailable'")))) /\
  (check_sp500_200ma Fixture.history_199 initial
     = (Ok None, asked initial (get_request SP500_URL 30)) /\
   journal (asked initial (get_request SP500_URL 30)) = journal initial).
Proof.
  split.
  - refine (proj1 (proj2 (failures_logged_short_history_silent Fixture.outage
                     (Fixture.settings Fixture.key) initial)) _ _ _).
    vm_compute. reflexivity.
  - refine (proj2 (proj2 (proj2 (proj2 (failures_logged_short_history_silent
                     Fixture.history_199 (Fixture.settings Fixture.key) initial)))) _ _).
    vm_compute. reflexivity.
Defined.

(** ** The yield curve *)

(** A result of the [try] block of the yield-curve fetcher is a triple
    whose third item is the difference of the other two. *)
Lemma check_yield_curve_body_result (rt : Runtime) (k : string) (s s' : State)
    (res : option (float * float * float)) :
  check_yield_curve_body rt k s = (Ok res, s') ->
  exists y2 y10, res = Some (y2, y10, (y10 - y2)%float).
Proof.
  unfold check_yield_curve_body, bind, lift, ret.
  destruct (fred_last_observation rt (fred_url "DGS2" k) s) as [[d2 | e] s1];
    [| discriminate].
  destruct (fred_last_observation rt (fred_url "DGS10" k) s1) as [[d10 | e] s2];
    [| discriminate].
  destruct (and_then (getitem_key d2 "value") (py_float rt)) as [y2 | e];
    [| discriminate].
  destruct (and_then (getitem_key d10 "value") (py_float rt)) as [y10 | e];
    [| discriminate].
  intros H. injection H as H _. subst res. eauto.
Qed.

Lemma check_yield_curve_result (rt : Runtime) (cfg : Settings) (s s' : State)
    (y2 y10 spread : float) :
  check_yield_curve rt cfg s = (Ok (Some (y2, y10, spread)), s') ->
  spread = (y10 - y2)%float.
Proof.
  unfold check_yield_curve.
  destruct (str_is_empty (FRED_API_KEY cfg)); [discriminate |].
  rewrite try_except_logs.
  destruct (check_yield_curve_body rt (FRED_API_KEY cfg) s) as [[res | e] s1] eqn:Hb;
    [| discriminate].
  intros H. injection H as H _. subst res.
  destruct (check_yield_curve_body_result rt _ _ _ _ Hb) as (a & b & Hab).
  injection Hab as -> -> ->. reflexivity.
Qed.

(** C3: in every result (y2, y10, spread) of the yield-curve fetcher the
    spread is y10 - y2; the loop writes the deep-inversion line exactly when
    spread < -0.75 and the normal/steepening line otherwise; for y2 = 4.50
    and y10 = 3.75 the spread is -0.75 itself and the line is the
    normal/steepening one. *)
Theorem yield_spread_and_inversion (rt : Runtime) (cfg : Settings) (s s' : State)
    (y2 y10 spread : float) :
  check_yield_curve rt cfg s = (Ok (Some (y2, y10, spread)), s') ->
  spread = (y10 - y2)%float /\
  (forall s1, exists line,
     yield_block rt (Some (y2, y10, spread)) s1 = (Ok tt, logged rt s1 line) /\
     (prefix "Yield Curve Deep Inversion" line = true
      <-> (spread <? -0.75)%float = true) /\
     (prefix "Yield Curve Normal/Steepening" line = true
      <-> (spread <? -0.75)%float = false)) /\
  (y2 = 4.5%float -> y10 = 3.75%float ->
     spread = (-0.75)%float /\
     forall s1,
       yield_block rt (Some (y2, y10, spread)) s1
       = (Ok tt,
          logged rt s1
            ("Yield Curve Normal/Steepening: Spread=" ++ format_2f rt (-0.75) ++ "%"))).
Proof.
  intros H. apply check_yield_curve_result in H.
  split; [exact H | split].
  - intros s1. rewrite yield_block_one_line.
    destruct (spread <? -0.75)%float; eexists; (split; [reflexivity |]);
      split; split; intros E; try reflexivity; try discriminate E.
  - intros -> ->. subst spread. split; [reflexivity |].
    intros s1. rewrite yield_block_one_line. reflexivity.
Qed.

Lemma yield_spread_and_inversion_witness :
  check_yield_curve Fixture.boundary (Fixture.settings Fixture.key) initial
    = (Ok (Some (4.5%float, 3.75%float, (-0.75)%float)),
       asked (asked initial (fred_request (fred_url "DGS2" Fixture.key)))
         (fred_request (fred_url "DGS10" Fixture.key))) /\
  (-0.75)%float = (3.75 - 4.5)%float /\
  map text (journal (snd (yield_block Fixture.boundary
                            (Some (4.5%float, 3.75%float, (-0.75)%float)) initial)))
  = [ "Yield Curve Normal/Steepening: Spread=-0.75%" ].
Proof.
  assert (Hrun : check_yield_curve Fixture.boundary (Fixture.settings Fixture.key) initial
            = (Ok (Some (4.5%float, 3.75%float, (-0.75)%float)),
               asked (asked initial (fred_request (fred_url "DGS2" Fixture.key)))
                 (fred_request (fred_url "DGS10" Fixture.key))))
    by (vm_compute; reflexivity).
  split; [exact Hrun |].
  destruct (yield_spread_and_inversion _ _ _ _ _ _ _ Hrun) as (Hspread & _ & Hline).
  split; [exact Hspread |].
  destruct (Hline eq_refl eq_refl) as (_ & Hblock).
  rewrite (Hblock initial). vm_compute. reflexivity.
Defined.

(** * Further properties of the program *)

(** ** States only grow *)

Lemma effect_nothing (s : State) : s = effect s [] [] [].
Proof.
  destruct s as [j q z]. unfold effect. simpl. rewrite !app_nil_r. reflexivity.
Qed.

Lemma effect_effect (s : State) (l l' : list LogEntry) (r r' : list Request)
    (z z' : list Z) :
  effect (effect s l r z) l' r' z' = effect s (l ++ l') (r ++ r') (z ++ z').
Proof.
  unfold effect. simpl. rewrite !app_assoc. reflexivity.
Qed.

Lemma asked_effect (s : State) (req : Request) : asked s req = effect s [] [req] [].
Proof.
  destruct s as [j q z]. unfold asked, effect. simpl. rewrite !app_nil_r. reflexivity.
Qed.

Lemma logged_effect (rt : Runtime) (s : State) (m : string) :
  logged rt s m
  = effect s [ {| stamp := clock rt (List.length (journal s)); text := m |} ] [] [].
Proof.
  destruct s as [j q z]. unfold logged, effect. simpl. rewrite !app_nil_r. reflexivity.
Qed.

(** Every state a step of the program reaches is put in the form
    [effect s lines reqs naps] over the state it started from. *)
Ltac to_effect :=
  repeat rewrite asked_effect;
  repeat rewrite logged_effect;
  repeat rewrite effect_effect.

Lemma vix_block_effect (rt : Runtime) (v : value) (s : State) :
  exists l, snd (vix_block rt v s) = effect s l [] [] /\ (List.length l <= 1)%nat.
Proof.
  unfold vix_block, bind, lift, log.
  destruct (truthy v); [| exists []; split; [apply effect_nothing | simpl; lia]].
  destruct (py_gt v (VInt 45)) as [[|] | e].
  - eexists. split; [simpl; apply logged_effect | simpl; lia].
  - destruct (py_gt v (VInt 25)) as [[|] | e].
    + eexists. split; [simpl; apply logged_effect | simpl; lia].
    + eexists. split; [simpl; apply logged_effect | simpl; lia].
    + exists []. split; [apply effect_nothing | simpl; lia].
  - exists []. split; [apply effect_nothing | simpl; lia].
Qed.

Lemma sp500_block_effect (rt : Runtime) (r : option (value * float)) (s : State) :
  exists l, snd (sp500_block rt r s) = effect s l [] [] /\ (List.length l <= 1)%nat.
Proof.
  unfold sp500_block, bind, lift, log.
  destruct r as [[price ma200] |];
    [| exists []; split; [apply effect_nothing | simpl; lia]].
  destruct (py_lt price (VFloat ma200)) as [[|] | e];
    try (exists []; split; [apply effect_nothing | simpl; lia]);
    (destruct (py_format_2f rt price) as [p | e];
     [ eexists; split; [simpl; apply logged_effect | simpl; lia]
     | exists []; split; [apply effect_nothing | simpl; lia] ]).
Qed.

Lemma yield_block_effect (rt : Runtime) (r : option (float * float * float)) (s : State) :
  exists l, snd (yield_block rt r s) = effect s l [] [] /\ (List.length l <= 1)%nat.
Proof.
  destruct r as [[[y2 y10] spread] |].
  - rewrite yield_block_one_line. eexists. split; [simpl; apply logged_effect | simpl; lia].
  - exists []. split; [apply effect_nothing | simpl; lia].
Qed.

Lemma vix_indicator_effect (rt : Runtime) (s : State) :
  exists l,
    snd (vix_indicator rt s) = effect s l [get_request VIX_URL 30] [] /\
    (List.length l <= 1)%nat.
Proof.
  unfold vix_indicator, bind, check_vix. rewrite try_except_logs.
  pose proof (check_vix_body_sent rt s) as H.
  destruct (check_vix_body rt s) as [[v | e] s1]; simpl in H; subst s1; cbv beta iota.
  - destruct (vix_block_effect rt v (asked s (get_request VIX_URL 30))) as (l & Hl & Hlen).
    rewrite Hl. to_effect. exists l. split; [reflexivity | exact Hlen].
  - change (vix_block rt VNone) with (@ret unit tt). unfold ret, snd. to_effect.
    eexists. split; [reflexivity | simpl; lia].
Qed.

Lemma sp500_indicator_effect (rt : Runtime) (s : State) :
  exists l,
    snd (sp500_indicator rt s) = effect s l [get_request SP500_URL 30] [] /\
    (List.length l <= 1)%nat.
Proof.
  unfold sp500_indicator, bind, check_sp500_200ma. rewrite try_except_logs.
  pose proof (check_sp500_200ma_body_sent rt s) as H.
  destruct (check_sp500_200ma_body rt s) as [[r | e] s1]; simpl in H; subst s1;
    cbv beta iota.
  - destruct (sp500_block_effect rt r (asked s (get_request SP500_URL 30)))
      as (l & Hl & Hlen).
    rewrite Hl. to_effect. exists l. split; [reflexivity | exact Hlen].
  - change (sp500_block rt None) with (@ret unit tt). unfold ret, snd. to_effect.
    eexists. split; [reflexivity | simpl; lia].
Qed.

Lemma check_yield_curve_body_state (rt : Runtime) (k : string) (s : State) :
  exists n,
    (1 <= n)%nat /\
    snd (check_yield_curve_body rt k s)
    = effect s [] (firstn n [fred_request (fred_url "DGS2" k);
                             fred_request (fred_url "DGS10" k)]) [].
Proof.
  unfold check_yield_curve_body, bind.
  pose proof (fred_last_observation_sent rt (fred_url "DGS2" k) s) as H2.
  destruct (fred_last_observation rt (fred_url "DGS2" k) s) as [[d2 | e] s1];
    simpl in H2; subst s1.
  - pose proof (fred_last_observation_sent rt (fred_url "DGS10" k)
                  (asked s (fred_request (fred_url "DGS2" k)))) as H10.
    destruct (fred_last_observation rt (fred_url "DGS10" k) _) as [[d10 | e] s2];
      simpl in H10; subst s2; exists 2%nat; (split; [lia |]).
    + unfold lift, ret.
      destruct (and_then (getitem_key d2 "value") (py_float rt)); simpl;
        [destruct (and_then (getitem_key d10 "value") (py_float rt)); simpl |];
        to_effect; reflexivity.
    + simpl. to_effect. reflexivity.
  - exists 1%nat. split; [lia |]. simpl. to_effect. reflexivity.
Qed.

Lemma yield_indicator_effect (rt : Runtime) (cfg : Settings) (s : State) :
  exists l n,
    snd (yield_indicator rt cfg s) = effect s l (firstn n (fred_requests cfg)) [] /\
    (List.length l <= 1)%nat /\
    (str_is_empty (FRED_API_KEY cfg) = false -> (1 <= n)%nat).
Proof.
  unfold yield_indicator, bind, check_yield_curve, fred_requests.
  destruct (str_is_empty (FRED_API_KEY cfg)) eqn:Hk.
  - exists [], 0%nat. unfold ret. simpl.
    split; [apply effect_nothing | split; [lia | discriminate]].
  - rewrite try_except_logs.
    destruct (check_yield_curve_body_state rt (FRED_API_KEY cfg) s) as (n & Hn & Hs).
    destruct (check_yield_curve_body rt (FRED_API_KEY cfg) s) as [[r | e] s1];
      simpl in Hs; subst s1; cbv beta iota.
    + destruct (yield_block_effect rt r
                  (effect s [] (firstn n [fred_request (fred_url "DGS2" (FRED_API_KEY cfg));
                                           fred_request (fred_url "DGS10" (FRED_API_KEY cfg))])
                     [])) as (l & Hl & Hlen).
      rewrite Hl. to_effect. exists l, n. rewrite app_nil_r.
      split; [reflexivity | split; [exact Hlen | intros _; exact Hn]].
    + change (yield_block rt None) with (@ret unit tt). unfold ret, snd. to_effect.
      eexists. exists n. rewrite app_nil_r.
      split; [reflexivity | split; [simpl; lia | intros _; exact Hn]].
Qed.

(** ** One turn of the loop *)

Lemma cycle_indicators (rt : Runtime) (cfg : Settings) (s : State) :
  cycle rt cfg s
  = (vix_indicator rt ;;; sp500_indicator rt ;;; yield_indicator rt cfg ;;;
     sleep (CHECK_INTERVAL_MINUTES cfg * 60)) s.
Proof.
  unfold cycle, vix_indicator, sp500_indicator, yield_indicator, bind.
  destruct (check_vix rt s) as [[v | e] s1]; [| reflexivity].
  destruct (vix_block rt v s1) as [[[] | e] s2]; [| reflexivity].
  destruct (check_sp500_200ma rt s2) as [[r | e] s3]; [| reflexivity].
  destruct (sp500_block rt r s3) as [[[] | e] s4]; [| reflexivity].
  destruct (check_yield_curve rt cfg s4) as [[y | e] s5]; [| reflexivity].
  destruct (yield_block rt y s5) as [[[] | e] s6]; reflexivity.
Qed.

Lemma cycle_effect (rt : Runtime) (cfg : Settings) (s : State) :
  exists l n z,
    snd (cycle rt cfg s) = effect s l (firstn n (cycle_requests cfg)) z /\
    (List.length l <= 3)%nat /\
    (1 <= n)%nat /\
    (fst (cycle rt cfg s) = Ok tt ->
       z = [CHECK_INTERVAL_MINUTES cfg * 60] /\ (2 <= n)%nat /\
       (str_is_empty (FRED_API_KEY cfg) = false -> (3 <= n)%nat)) /\
    (fst (cycle rt cfg s) <> Ok tt -> z = []).
Proof.
  rewrite cycle_indicators. unfold bind, cycle_requests.
  destruct (vix_indicator_effect rt s) as (l1 & H1 & L1).
  destruct (vix_indicator rt s) as [[[] | e] s1]; simpl in H1; subst s1.
  2:{ exists l1, 1%nat, []. simpl.
      repeat split; try lia; try discriminate. }
  destruct (sp500_indicator_effect rt (effect s l1 [get_request VIX_URL 30] []))
    as (l2 & H2 & L2).
  destruct (sp500_indicator rt _) as [[[] | e] s2]; simpl in H2; subst s2.
  2:{ exists (l1 ++ l2)%list, 2%nat, []. to_effect. simpl. rewrite length_app.
      repeat split; try lia; try discriminate. }
  destruct (yield_indicator_effect rt cfg
              (effect (effect s l1 [get_request VIX_URL 30] []) l2
                 [get_request SP500_URL 30] [])) as (l3 & k & H3 & L3 & K3).
  destruct (yield_indicator rt cfg _) as [[[] | e] s3]; simpl in H3; subst s3.
  2:{ exists (l1 ++ l2 ++ l3)%list, (2 + k)%nat, []. to_effect. simpl.
      rewrite !length_app.
      repeat split; try lia; try discriminate. }
  unfold sleep.
  destruct ((CHECK_INTERVAL_MINUTES cfg * 60 <? - SLEEP_MAX)
            || (SLEEP_MAX <? CHECK_INTERVAL_MINUTES cfg * 60));
    [| destruct (CHECK_INTERVAL_MINUTES cfg * 60 <? 0)].
  - exists (l1 ++ l2 ++ l3)%list, (2 + k)%nat, []. to_effect. simpl.
    rewrite !length_app.
    repeat split; try lia; try discriminate.
  - exists (l1 ++ l2 ++ l3)%list, (2 + k)%nat, []. to_effect. simpl.
    rewrite !length_app.
    repeat split; try lia; try discriminate.
  - exists (l1 ++ l2 ++ l3)%list, (2 + k)%nat, [CHECK_INTERVAL_MINUTES cfg * 60].
    simpl.
    split; [| split; [| split; [| split]]].
    + unfold effect. simpl. rewrite !app_nil_r, <- !app_assoc. reflexivity.
    + rewrite !length_app. lia.
    + lia.
    + intros _. split; [reflexivity | split; [lia |]].
      intros Hk. specialize (K3 Hk). lia.
    + intros H. exfalso. apply H. reflexivity.
Qed.

Lemma cycle_requests_length (cfg : Settings) :
  (2 <= List.length (cycle_requests cfg) <= 4)%nat.
Proof.
  unfold cycle_requests, fred_requests.
  destruct (str_is_empty (FRED_API_KEY cfg)); simpl; lia.
Qed.

Lemma cycle_growth (rt : Runtime) (cfg : Settings) (s : State) :
  exists l r z,
    snd (cycle rt cfg s) = effect s l r z /\
    (List.length l <= 3)%nat /\
    (List.length r <= 4)%nat /\
    (List.length z <= 1)%nat.
Proof.
  destruct (cycle_effect rt cfg s) as (l & n & z & Hs & Hl & Hn & Hok & Hno).
  exists l, (firstn n (cycle_requests cfg)), z.
  pose proof (cycle_requests_length cfg) as Hc.
  split; [exact Hs | split; [exact Hl | split]].
  - rewrite length_firstn. lia.
  - destruct (fst (cycle rt cfg s)) as [[] | e] eqn:E.
    + destruct (Hok eq_refl) as (-> & _). simpl. lia.
    + rewrite Hno by discriminate. simpl. lia.
Qed.

(** X1: in one turn of the loop the state only grows, and by little: at
    most three lines are written, the requests made are an initial segment,
    never empty, of the fixed sequence VIX, S&P 500, DGS2, DGS10 (the last
    two only with a key), so at most four and never one endpoint twice, and
    the loop sleeps at most once. *)
Theorem cycle_adds_bounded (rt : Runtime) (cfg : Settings) (s : State) :
  exists l n z,
    snd (cycle rt cfg s) = effect s l (firstn n (cycle_requests cfg)) z /\
    (List.length l <= 3)%nat /\
    (1 <= List.length (firstn n (cycle_requests cfg)) <= 4)%nat /\
    (List.length z <= 1)%nat.
Proof.
  destruct (cycle_effect rt cfg s) as (l & n & z & Hs & Hl & Hn & Hok & Hno).
  exists l, n, z.
  pose proof (cycle_requests_length cfg) as Hc.
  split; [exact Hs | split; [exact Hl | split]].
  - rewrite length_firstn. lia.
  - destruct (fst (cycle rt cfg s)) as [[] | e] eqn:E.
    + destruct (Hok eq_refl) as (-> & _). simpl. lia.
    + rewrite Hno by discriminate. simpl. lia.
Qed.

(** X2: a turn of the loop that completes has made the VIX and the S&P 500
    requests in this order, then at least the first FRED request when a key
    is configured, has written at most three lines, and has slept once, for
    CHECK_INTERVAL_MINUTES * 60 seconds. *)
Theorem completed_cycle (rt : Runtime) (cfg : Settings) (s s' : State) :
  cycle rt cfg s = (Ok tt, s') ->
  exists l n,
    s' = effect s l (firstn n (cycle_requests cfg)) [CHECK_INTERVAL_MINUTES cfg * 60] /\
    (List.length l <= 3)%nat /\
    (2 <= n)%nat /\
    (str_is_empty (FRED_API_KEY cfg) = false -> (3 <= n)%nat).
Proof.
  intros H.
  destruct (cycle_effect rt cfg s) as (l & n & z & Hs & Hl & Hn & Hok & _).
  rewrite H in Hs, Hok. simpl in Hs, Hok.
  destruct (Hok eq_refl) as (-> & H2 & H3).
  exists l, n. repeat split; assumption.
Qed.

Lemma completed_cycle_witness :
  exists l n,
    snd (cycle Fixture.scenario (Fixture.settings Fixture.key) initial)
    = effect initial l (firstn n (cycle_requests (Fixture.settings Fixture.key))) [1800] /\
    (List.length l <= 3)%nat /\
    (2 <= n)%nat /\
    (str_is_empty Fixture.key = false -> (3 <= n)%nat).
Proof.
  apply (completed_cycle Fixture.scenario (Fixture.settings Fixture.key) initial).
  vm_compute. reflexivity.
Defined.

(** X3: with a negative CHECK_INTERVAL_MINUTES no turn of the loop ever
    completes: whatever the fetchers do, the turn ends by raising, at the
    latest in [time.sleep]. *)
Theorem negative_interval_never_completes (rt : Runtime) (cfg : Settings) (s : State) :
  CHECK_INTERVAL_MINUTES cfg < 0 ->
  exists e s', cycle rt cfg s = (Raise e, s').
Proof.
  intros Hneg. rewrite cycle_indicators. unfold bind.
  destruct (vix_indicator rt s) as [[[] | e] s1]; [| eauto].
  destruct (sp500_indicator rt s1) as [[[] | e] s2]; [| eauto].
  destruct (yield_indicator rt cfg s2) as [[[] | e] s3]; [| eauto].
  unfold sleep.
  assert (H : (CHECK_INTERVAL_MINUTES cfg * 60 <? 0) = true) by (apply Z.ltb_lt; lia).
  rewrite H.
  destruct ((CHECK_INTERVAL_MINUTES cfg * 60 <? - SLEEP_MAX)
            || (SLEEP_MAX <? CHECK_INTERVAL_MINUTES cfg * 60)); eauto.
Qed.

Lemma negative_interval_never_completes_witness :
  exists e s',
    cycle Fixture.scenario
      {| FRED_API_KEY := Fixture.key; LOG_FILE := "market_triggers.log";
         CHECK_INTERVAL_MINUTES := -5 |} initial
    = (Raise e, s').
Proof.
  apply negative_interval_never_completes. simpl. lia.
Defined.

(** ** The loop over many turns *)

Lemma cycles_effect (rt : Runtime) (cfg : Settings) (n : nat) (s : State) :
  exists l r z,
    snd (cycles rt cfg n s) = effect s l r z /\
    (List.length l <= 3 * n)%nat /\
    (List.length r <= 4 * n)%nat /\
    (List.length z <= n)%nat.
Proof.
  revert s. induction n as [| n IH]; intros s.
  - exists [], [], []. simpl. split; [apply effect_nothing | simpl; lia].
  - destruct (cycle_growth rt cfg s) as (l & r & z & Hs & Hl & Hr & Hz).
    change (cycles rt cfg (S n)) with (cycle rt cfg ;;; cycles rt cfg n).
    unfold bind.
    destruct (cycle rt cfg s) as [[[] | e] s1]; simpl in Hs; subst s1.
    + destruct (IH (effect s l r z)) as (l' & r' & z' & Hs' & Hl' & Hr' & Hz').
      rewrite Hs'. to_effect.
      exists (l ++ l')%list, (r ++ r')%list, (z ++ z')%list.
      rewrite !length_app. split; [reflexivity | lia].
    + exists l, r, z. simpl. split; [reflexivity | lia].
Qed.

(** X4: [run_monitor] never rewrites what is already there: over its first
    [n] turns, finished or cut short by an exception, the log is the old log
    followed by the start line and at most [3 * n] further lines, the
    requests are the old ones followed by at most [4 * n], and the sleeps
    the old ones followed by at most [n]. *)
Theorem run_monitor_appends (rt : Runtime) (cfg : Settings) (n : nat) (s : State) :
  exists l r z,
    snd (run_monitor rt cfg n s)
    = effect s
        ({| stamp := clock rt (List.length (journal s));
            text := "=== Market Trigger Monitor Started ===" |} :: l) r z /\
    (List.length l <= 3 * n)%nat /\
    (List.length r <= 4 * n)%nat /\
    (List.length z <= n)%nat.
Proof.
  unfold run_monitor, bind, log.
  destruct (cycles_effect rt cfg n (logged rt s "=== Market Trigger Monitor Started ==="))
    as (l & r & z & Hs & Hl & Hr & Hz).
  exists l, r, z. rewrite Hs. to_effect.
  split; [reflexivity | lia].
Qed.

Lemma cycles_completed (rt : Runtime) (cfg : Settings) (n : nat) (s s' : State) :
  cycles rt cfg n s = (Ok tt, s') ->
  slept s' = app (slept s) (repeat (CHECK_INTERVAL_MINUTES cfg * 60) n) /\
  (List.length (sent s) + 2 * n <= List.length (sent s'))%nat.
Proof.
  revert s. induction n as [| n IH]; intros s H.
  - injection H as <-. simpl. rewrite app_nil_r. split; [reflexivity | lia].
  - change (cycles rt cfg (S n)) with (cycle rt cfg ;;; cycles rt cfg n) in H.
    unfold bind in H.
    destruct (cycle rt cfg s) as [[[] | e] s1] eqn:Hc; [| discriminate].
    destruct (cycle_effect rt cfg s) as (l & k & z & Hs & _ & _ & Hok & _).
    rewrite Hc in Hs, Hok. simpl in Hs, Hok.
    destruct (Hok eq_refl) as (-> & Hk & _). subst s1.
    destruct (IH _ H) as (Hz & Hr).
    pose proof (cycle_requests_length cfg) as Hlen.
    simpl in Hz, Hr. rewrite length_app, length_firstn in Hr.
    split; [| lia].
    rewrite Hz, <- app_assoc. reflexivity.
Qed.

(** X5: when the first [n] turns of [run_monitor] all complete, the loop
    has slept exactly [n] times, each time for CHECK_INTERVAL_MINUTES * 60
    seconds, and has made at least two requests per turn. *)
Theorem run_monitor_completed (rt : Runtime) (cfg : Settings) (n : nat) (s s' : State) :
  run_monitor rt cfg n s = (Ok tt, s') ->
  slept s' = app (slept s) (repeat (CHECK_INTERVAL_MINUTES cfg * 60) n) /\
  (List.length (sent s) + 2 * n <= List.length (sent s'))%nat.
Proof.
  unfold run_monitor, bind, log. intros H.
  exact (cycles_completed rt cfg n _ s' H).
Qed.

Lemma run_monitor_completed_witness :
  slept (snd (run_monitor Fixture.scenario (Fixture.settings Fixture.key) 3 initial))
  = app (slept initial) (repeat (30 * 60) 3) /\
  (List.length (sent initial) + 2 * 3
   <= List.length
        (sent (snd (run_monitor Fixture.scenario (Fixture.settings Fixture.key) 3 initial))))%nat.
Proof.
  apply (run_monitor_completed Fixture.scenario (Fixture.settings Fixture.key) 3 initial).
  vm_compute. reflexivity.
Defined.

(** ** The VIX in the loop *)

(** X6: for an [int] VIX other than 0 the loop writes exactly one line:
    the ALERT line above 45, the Warning line above 25 and up to 45
    included, the Normal line up to 25 included. *)
Theorem vix_int_thresholds (rt : Runtime) (s : State) (z : Z) :
  z <> 0 ->
  exists line,
    vix_block rt (VInt z) s = (Ok tt, logged rt s line) /\
    (45 < z -> line = "VIX ALERT: " ++ str_int z ++ " (Possible Capitulation Trigger)") /\
    (25 < z <= 45 -> line = "VIX Warning: " ++ str_int z ++ " (Crash Phase Trigger)") /\
    (z <= 25 -> line = "VIX Normal: " ++ str_int z).
Proof.
  intros Hz. rewrite (vix_block_int rt s z Hz).
  eexists. split; [reflexivity |].
  destruct (45 <? z) eqn:H45; [apply Z.ltb_lt in H45 | apply Z.ltb_ge in H45].
  - repeat split; intros; try reflexivity; lia.
  - destruct (25 <? z) eqn:H25; [apply Z.ltb_lt in H25 | apply Z.ltb_ge in H25];
      repeat split; intros; try reflexivity; lia.
Qed.

Lemma vix_int_thresholds_witness :
  exists line,
    vix_block Fixture.scenario (VInt 45) initial
    = (Ok tt, logged Fixture.scenario initial line) /\
    (45 < 45 -> line = "VIX ALERT: " ++ str_int 45 ++ " (Possible Capitulation Trigger)") /\
    (25 < 45 <= 45 -> line = "VIX Warning: " ++ str_int 45 ++ " (Crash Phase Trigger)") /\
    (45 <= 25 -> line = "VIX Normal: " ++ str_int 45).
Proof.
  apply (vix_int_thresholds Fixture.scenario initial 45). lia.
Defined.

Lemma check_vix_delivered (rt : Runtime) (s : State) (r : Response) (data v : value) :
  network rt (List.length (sent s)) (get_request VIX_URL 30) = Delivered r ->
  status_code r = 200 ->
  json_loads rt (content r) = inr data ->
  vix_path data = Ok v ->
  check_vix rt s = (Ok v, asked s (get_request VIX_URL 30)).
Proof.
  intros Hn Hs Hj Hp. unfold check_vix. rewrite try_except_logs.
  unfold check_vix_body, bind.
  rewrite (get_delivered_200 rt VIX_URL 30 s r data Hn Hs Hj).
  unfold lift. rewrite Hp. reflexivity.
Qed.

(** X7: the loop has no handler of its own: when the quote document carries
    a price that is true and not a number (a text, a non-empty list or
    object), [check_vix] returns it as it is, the comparison [vix > 45]
    raises TypeError, and the turn ends there, before the S&P 500 and the
    yield curve are fetched and before any sleep. *)
Theorem non_number_vix_stops_cycle (rt : Runtime) (cfg : Settings) (s : State)
    (r : Response) (data v : value) :
  network rt (List.length (sent s)) (get_request VIX_URL 30) = Delivered r ->
  status_code r = 200 ->
  json_loads rt (content r) = inr data ->
  vix_path data = Ok v ->
  truthy v = true ->
  as_number v = None ->
  cycle rt cfg s
  = (Raise (Builtin TypeError
       ("'>' not supported between instances of '" ++ type_name v ++ "' and 'int'")),
     asked s (get_request VIX_URL 30)).
Proof.
  intros Hn Hs Hj Hp Ht Hnum.
  unfold cycle, bind.
  rewrite (check_vix_delivered rt s r data v Hn Hs Hj Hp).
  unfold vix_block, bind, lift. rewrite Ht. unfold py_gt. rewrite Hnum. reflexivity.
Qed.

Lemma non_number_vix_stops_cycle_witness :
  cycle Fixture.vix_text (Fixture.settings Fixture.key) initial
  = (Raise (Builtin TypeError "'>' not supported between instances of 'str' and 'int'"),
     asked initial (get_request VIX_URL 30)).
Proof.
  apply (non_number_vix_stops_cycle Fixture.vix_text (Fixture.settings Fixture.key) initial
           {| status_code := 200; content := Fixture.vix_body (Fixture.q "18.5") |}
           (Fixture.vix_doc (VStr "18.5")) (VStr "18.5"));
    vm_compute; reflexivity.
Defined.

(** ** The HTTP wrapper, read backwards *)

(** X8: whatever [get] returns is the decoded body of a response that was
    received with status 200, and [get] has made exactly one request, with
    the header set and the timeout, and written nothing to the log. *)
Theorem get_returns_decoded_200 (rt : Runtime) (u : string) (tmo : Z) (s s' : State)
    (v : value) :
  get rt u tmo s = (Ok v, s') ->
  exists r,
    network rt (List.length (sent s)) (get_request u tmo) = Delivered r /\
    status_code r = 200 /\
    json_loads rt (content r) = inr v /\
    s' = asked s (get_request u tmo).
Proof.
  unfold get, bind, requests_get.
  destruct (network rt (List.length (sent s)) (get_request u tmo)) as [r | d];
    [| discriminate].
  destruct (status_code r =? 200) eqn:Hs; simpl; [| discriminate].
  unfold lift, response_json.
  destruct (json_loads rt (content r)) as [d | w] eqn:Hj; [discriminate |].
  intros H. injection H as <- <-.
  exists r. apply Z.eqb_eq in Hs. repeat split; assumption.
Qed.

Lemma get_returns_decoded_200_witness :
  exists r,
    network Fixture.scenario (List.length (sent initial)) (get_request VIX_URL 30)
      = Delivered r /\
    status_code r = 200 /\
    json_loads Fixture.scenario (content r) = inr (Fixture.vix_doc (VFloat 50)) /\
    asked initial (get_request VIX_URL 30) = asked initial (get_request VIX_URL 30).
Proof.
  apply (get_returns_decoded_200 Fixture.scenario VIX_URL 30 initial).
  vm_compute. reflexivity.
Defined.

(** ** Failures and the rest of the turn *)



(** ** The yield-curve fetcher request by request *)

Lemma fred_last_observation_delivered (rt : Runtime) (u : string) (s : State)
    (r : Response) :
  network rt (List.length (sent s)) (fred_request u) = Delivered r ->
  fred_last_observation rt u s
  = (and_then (response_json rt r) (fun data =>
       and_then (getitem_key data "observations") (fun obs => getitem_index obs (-1))),
     asked s (fred_request u)).
Proof.
  intros Hn. unfold fred_last_observation, bind, requests_get. rewrite Hn.
  unfold lift.
  destruct (and_then (response_json rt r) _); reflexivity.
Qed.

Lemma last_value_observation (rt : Runtime) (data : value) (y : float) :
  last_value rt data = Ok y ->
  exists o,
    and_then (getitem_key data "observations") (fun obs => getitem_index obs (-1)) = Ok o /\
    and_then (getitem_key o "value") (py_float rt) = Ok y.
Proof.
  unfold last_value.
  destruct (getitem_key data "observations") as [obs | e]; simpl; [| discriminate].
  destruct (getitem_index obs (-1)) as [o | e]; simpl; [| discriminate].
  intros H. exists o. split; [reflexivity | exact H].
Qed.

(** X10: the yield-curve fetcher never looks at the status of a FRED
    response: whenever the two bodies decode and the last observation of
    each has a value that [float] accepts, the result is the two yields and
    their difference, whatever the two status codes are. *)
Theorem yield_curve_ignores_status (rt : Runtime) (cfg : Settings) (s : State)
    (r2 r10 : Response) (d2 d10 : value) (y2 y10 : float) :
  str_is_empty (FRED_API_KEY cfg) = false ->
  network rt (List.length (sent s)) (fred_request (fred_url "DGS2" (FRED_API_KEY cfg)))
    = Delivered r2 ->
  network rt (S (List.length (sent s)))
    (fred_request (fred_url "DGS10" (FRED_API_KEY cfg))) = Delivered r10 ->
  json_loads rt (content r2) = inr d2 ->
  json_loads rt (content r10) = inr d10 ->
  last_value rt d2 = Ok y2 ->
  last_value rt d10 = Ok y10 ->
  check_yield_curve rt cfg s
  = (Ok (Some (y2, y10, (y10 - y2)%float)),
     asked (asked s (fred_request (fred_url "DGS2" (FRED_API_KEY cfg))))
       (fred_request (fred_url "DGS10" (FRED_API_KEY cfg)))).
Proof.
  intros Hk Hn2 Hn10 Hj2 Hj10 Hv2 Hv10.
  destruct (last_value_observation rt d2 y2 Hv2) as (o2 & Ho2 & Hy2).
  destruct (last_value_observation rt d10 y10 Hv10) as (o10 & Ho10 & Hy10).
  rewrite (check_yield_curve_keyed rt cfg s Hk), try_except_logs.
  unfold check_yield_curve_body, bind.
  rewrite (fred_last_observation_delivered rt _ s r2 Hn2).
  unfold response_json at 1. rewrite Hj2.
  change (and_then (Ok d2) ?k) with (k d2). cbv beta. rewrite Ho2.
  rewrite (fred_last_observation_delivered rt _ (asked s _) r10).
  2:{ simpl. rewrite length_app, Nat.add_comm. exact Hn10. }
  unfold response_json. rewrite Hj10.
  change (and_then (Ok d10) ?k) with (k d10). cbv beta. rewrite Ho10.
  unfold lift. rewrite Hy2, Hy10. reflexivity.
Qed.

Lemma yield_curve_ignores_status_witness :
  check_yield_curve Fixture.fred_500 (Fixture.settings Fixture.key) initial
  = (Ok (Some (4.5%float, 3.75%float, (3.75 - 4.5)%float)),
     asked (asked initial (fred_request (fred_url "DGS2" Fixture.key)))
       (fred_request (fred_url "DGS10" Fixture.key))).
Proof.
  apply (yield_curve_ignores_status Fixture.fred_500 (Fixture.settings Fixture.key) initial
           {| status_code := 500; content := Fixture.fred_body "4.50" |}
           {| status_code := 500; content := Fixture.fred_body "3.75" |}
           (Fixture.fred_doc "4.50") (Fixture.fred_doc "3.75"));
    vm_compute; reflexivity.
Defined.

(** X11: the yield curve is all or nothing, and the second request depends
    on the first: when the 2-year request fails on the wire the 10-year
    request is never made; when the 2-year observation is in hand and the
    10-year request fails, the 2-year value is dropped; both ways the
    fetcher returns no data with one error line. *)
Theorem yield_curve_all_or_nothing (rt : Runtime) (cfg : Settings) (s : State)
    (detail : string) :
  str_is_empty (FRED_API_KEY cfg) = false ->
  (network rt (List.length (sent s)) (fred_request (fred_url "DGS2" (FRED_API_KEY cfg)))
     = Failed detail ->
   check_yield_curve rt cfg s
   = (Ok None,
      logged rt (asked s (fred_request (fred_url "DGS2" (FRED_API_KEY cfg))))
        ("Error fetching yield curve: " ++ detail))) /\
  (forall o2 s1,
     fred_last_observation rt (fred_url "DGS2" (FRED_API_KEY cfg)) s = (Ok o2, s1) ->
     network rt (S (List.length (sent s)))
       (fred_request (fred_url "DGS10" (FRED_API_KEY cfg))) = Failed detail ->
     check_yield_curve rt cfg s
     = (Ok None,
        logged rt
          (asked (asked s (fred_request (fred_url "DGS2" (FRED_API_KEY cfg))))
             (fred_request (fred_url "DGS10" (FRED_API_KEY cfg))))
          ("Error fetching yield curve: " ++ detail))).
Proof.
  intros Hk. split.
  - intros Hn. rewrite (check_yield_curve_keyed rt cfg s Hk), try_except_logs.
    unfold check_yield_curve_body, bind, fred_last_observation, bind, requests_get.
    rewrite Hn. reflexivity.
  - intros o2 s1 H2 Hn.
    pose proof (fred_last_observation_sent rt (fred_url "DGS2" (FRED_API_KEY cfg)) s) as Hs.
    rewrite H2 in Hs. simpl in Hs. subst s1.
    rewrite (check_yield_curve_keyed rt cfg s Hk), try_except_logs.
    unfold check_yield_curve_body, bind. rewrite H2.
    unfold fred_last_observation, bind, requests_get.
    replace (List.length (sent (asked s (fred_request (fred_url "DGS2" (FRED_API_KEY cfg))))))
      with (S (List.length (sent s))) by (simpl; rewrite length_app; simpl; lia).
    rewrite Hn. reflexivity.
Qed.

Lemma yield_curve_all_or_nothing_witness :
  check_yield_curve Fixture.blackout (Fixture.settings Fixture.key) initial
    = (Ok None,
       logged Fixture.blackout (asked initial (fred_request (fred_url "DGS2" Fixture.key)))
         "Error fetching yield curve: Connection refused") /\
  check_yield_curve Fixture.fred_half (Fixture.settings Fixture.key) initial
    = (Ok None,
       logged Fixture.fred_half
         (asked (asked initial (fred_request (fred_url "DGS2" Fixture.key)))
            (fred_request (fred_url "DGS10" Fixture.key)))
         "Error fetching yield curve: Connection refused").
Proof.
  split.
  - apply (proj1 (yield_curve_all_or_nothing Fixture.blackout
                    (Fixture.settings Fixture.key) initial "Connection refused" eq_refl)).
    vm_compute. reflexivity.
  - eapply (proj2 (yield_curve_all_or_nothing Fixture.fred_half
                     (Fixture.settings Fixture.key) initial "Connection refused" eq_refl)).
    + vm_compute. reflexivity.
    + vm_compute. reflexivity.
Defined.

(** ** The window of the moving average *)

Lemma valid_closes_app (a b : list (option float)) :
  valid_closes (a ++ b) = app (valid_closes a) (valid_closes b).
Proof.
  induction a as [| [f |] a IH]; simpl; [reflexivity | f_equal; exact IH | exact IH].
Qed.

Lemma slice_last_app {A : Type} (k : nat) (a b : list A) :
  (k <= List.length b)%nat -> slice_last k (a ++ b) = slice_last k b.
Proof.
  intros H. unfold slice_last.
  rewrite length_app, skipn_app.
  replace (skipn (List.length a + List.length b - k) a) with (@nil A)
    by (symmetry; apply skipn_all2; lia).
  simpl. f_equal. lia.
Qed.

Lemma last_app_nonempty {A : Type} (a b : list A) (d : A) :
  b <> [] -> last (a ++ b) d = last b d.
Proof.
  intros Hb. induction a as [| x a IH]; [reflexivity |].
  simpl. rewrite IH.
  destruct (a ++ b)%list eqn:E; [| reflexivity].
  apply app_eq_nil in E. destruct E as [_ E]. contradiction.
Qed.

(** X12: only the most recent 200 valid closes matter: once a series of
    floats and nulls holds 200 valid closes, any older closes put in front
    of it, valid or null, leave the result of lines 68-73 as it is. *)
Theorem older_closes_do_not_matter (older recent : list (option float)) :
  (200 <= List.length (valid_closes recent))%nat ->
  sp500_of_closes (VList (map close_value (older ++ recent)))
  = sp500_of_closes (VList (map close_value recent)).
Proof.
  intros H. rewrite !sp500_of_float_closes, valid_closes_app, length_app.
  assert (H1 : (200 <=? List.length (valid_closes older)
                         + List.length (valid_closes recent))%nat = true)
    by (apply Nat.leb_le; lia).
  assert (H2 : (200 <=? List.length (valid_closes recent))%nat = true)
    by (apply Nat.leb_le; exact H).
  rewrite H1, H2, (slice_last_app 200 _ _ H), last_app_nonempty; [reflexivity |].
  intros E. rewrite E in H. simpl in H. lia.
Qed.

Lemma older_closes_do_not_matter_witness :
  sp500_of_closes
    (VList (map close_value ([Some 1%float; None; Some 2%float] ++ Fixture.closes_200)))
  = sp500_of_closes (VList (map close_value Fixture.closes_200)).
Proof.
  apply older_closes_do_not_matter. vm_compute. lia.
Defined.

(** ** Loading the settings *)

(** X13: the settings load exactly when FRED_API_KEY is defined and
    CHECK_INTERVAL_MINUTES is either undefined or a text that [int]
    accepts; the key is then the defined text (possibly empty), the log file
    is LOG_FILE or "market_triggers.log", and the interval is the parsed
    number or 30. *)
Theorem load_settings_ok_iff (rt : Runtime) (environ : string -> option string)
    (cfg : Settings) :
  load_settings rt environ = Ok cfg
  <-> environ "FRED_API_KEY" = Some (FRED_API_KEY cfg) /\
      LOG_FILE cfg = or_default (environ "LOG_FILE") "market_triggers.log" /\
      match environ "CHECK_INTERVAL_MINUTES" with
      | Some raw => int_of_str rt raw = Some (CHECK_INTERVAL_MINUTES cfg)
      | None => CHECK_INTERVAL_MINUTES cfg = 30
      end.
Proof.
  destruct cfg as [k f m]. unfold load_settings, config, cast_str, cast_int, or_default.
  simpl.
  destruct (environ "FRED_API_KEY") as [key |]; simpl.
  - destruct (environ "LOG_FILE") as [file |]; simpl;
      (destruct (environ "CHECK_INTERVAL_MINUTES") as [raw |]; simpl;
       [ destruct (int_of_str rt raw) as [z |]; simpl | ]);
      split;
      try (intros H; injection H as -> -> ->; repeat split; reflexivity);
      try (intros (H1 & H2 & H3); congruence);
      try discriminate.
  - split; [discriminate | intros (H & _); discriminate].
Qed.

(** ** The S&P 500 against its average *)

From Stdlib Require Import Floats.FloatAxioms.

Lemma SFltb_irrefl (x : spec_float) : SFltb x x = false.
Proof.
  destruct x as [s | s | | s m e]; try (destruct s; reflexivity); try reflexivity.
  unfold SFltb, SFcompare.
  rewrite Z.compare_refl, Pos.compare_cont_refl. destruct s; reflexivity.
Qed.

Lemma float_ltb_irrefl (f : float) : (f <? f)%float = false.
Proof. rewrite ltb_spec. apply SFltb_irrefl. Qed.

(** X14: for a [float] price the loop writes one line, the Below line
    exactly when the price is less than the average and the Above line
    otherwise; a price equal to the average is reported Above. *)
Theorem sp500_below_iff_less (rt : Runtime) (s : State) (price ma200 : float) :
  exists line,
    sp500_block rt (Some (VFloat price, ma200)) s = (Ok tt, logged rt s line) /\
    (prefix "S&P 500 Below 200MA" line = true <-> (price <? ma200)%float = true) /\
    (prefix "S&P 500 Above 200MA" line = true <-> (price <? ma200)%float = false) /\
    (price = ma200 -> prefix "S&P 500 Above 200MA" line = true).
Proof.
  rewrite sp500_block_one_line.
  destruct (price <? ma200)%float eqn:E; eexists; (split; [reflexivity |]).
  - split; [split; reflexivity |]. split; [split; discriminate |].
    intros ->. rewrite float_ltb_irrefl in E. discriminate.
  - split; [split; discriminate |]. split; [split; reflexivity |].
    intros _. reflexivity.
Qed.

(** ** Data and error lines exclude each other *)

Lemma check_yield_curve_body_ok_state (rt : Runtime) (k : string) (s s' : State)
    (res : option (float * float * float)) :
  check_yield_curve_body rt k s = (Ok res, s') ->
  s' = asked (asked s (fred_request (fred_url "DGS2" k)))
         (fred_request (fred_url "DGS10" k)).
Proof.
  unfold check_yield_curve_body, bind.
  pose proof (fred_last_observation_sent rt (fred_url "DGS2" k) s) as H2.
  destruct (fred_last_observation rt (fred_url "DGS2" k) s) as [[d2 | e] s1];
    simpl in H2; subst s1; [| discriminate].
  pose proof (fred_last_observation_sent rt (fred_url "DGS10" k)
                (asked s (fred_request (fred_url "DGS2" k)))) as H10.
  destruct (fred_last_observation rt (fred_url "DGS10" k) _) as [[d10 | e] s2];
    simpl in H10; subst s2; [| discriminate].
  unfold lift, ret.
  destruct (and_then (getitem_key d2 "value") (py_float rt)); [| discriminate].
  destruct (and_then (getitem_key d10 "value") (py_float rt)); [| discriminate].
  intros H. injection H as _ <-. reflexivity.
Qed.

(** X15: a fetcher that returns data has written nothing to the log: the
    VIX fetcher returning anything but None, the S&P 500 fetcher returning a
    pair and the yield-curve fetcher returning a triple leave the state with
    their requests added (one, one and two) and nothing else. *)
Theorem data_means_no_error_line (rt : Runtime) (cfg : Settings) (s s' : State) :
  (forall v, check_vix rt s = (Ok v, s') -> v <> VNone ->
     s' = asked s (get_request VIX_URL 30)) /\
  (forall p, check_sp500_200ma rt s = (Ok (Some p), s') ->
     s' = asked s (get_request SP500_URL 30)) /\
  (forall t, check_yield_curve rt cfg s = (Ok (Some t), s') ->
     s' = asked (asked s (fred_request (fred_url "DGS2" (FRED_API_KEY cfg))))
            (fred_request (fred_url "DGS10" (FRED_API_KEY cfg)))).
Proof.
  split; [| split].
  - intros v H Hv. unfold check_vix in H. rewrite try_except_logs in H.
    pose proof (check_vix_body_sent rt s) as Hs.
    destruct (check_vix_body rt s) as [[w | e] s1]; simpl in Hs; subst s1.
    + injection H as _ <-. reflexivity.
    + injection H as <- _. contradiction Hv. reflexivity.
  - intros p H. unfold check_sp500_200ma in H. rewrite try_except_logs in H.
    pose proof (check_sp500_200ma_body_sent rt s) as Hs.
    destruct (check_sp500_200ma_body rt s) as [[w | e] s1]; simpl in Hs; subst s1.
    + injection H as _ <-. reflexivity.
    + discriminate.
  - intros t H. unfold check_yield_curve in H.
    destruct (str_is_empty (FRED_API_KEY cfg)); [discriminate |].
    rewrite try_except_logs in H.
    destruct (check_yield_curve_body rt (FRED_API_KEY cfg) s) as [[w | e] s1] eqn:Hb;
      [| discriminate].
    injection H as _ <-.
    exact (check_yield_curve_body_ok_state rt _ _ _ _ Hb).
Qed.

Lemma data_means_no_error_line_witness :
  snd (check_vix Fixture.scenario initial) = asked initial (get_request VIX_URL 30) /\
  snd (check_sp500_200ma Fixture.scenario initial)
    = asked initial (get_request SP500_URL 30) /\
  snd (check_yield_curve Fixture.scenario (Fixture.settings Fixture.key) initial)
    = asked (asked initial (fred_request (fred_url "DGS2" Fixture.key)))
        (fred_request (fred_url "DGS10" Fixture.key)).
Proof.
  split; [| split].
  - apply (proj1 (data_means_no_error_line Fixture.scenario (Fixture.settings Fixture.key)
                    initial _) (VFloat 50)).
    + vm_compute. reflexivity.
    + discriminate.
  - apply (proj1 (proj2 (data_means_no_error_line Fixture.scenario
                           (Fixture.settings Fixture.key) initial _))
             (VFloat 3900, 4000%float)).
    vm_compute. reflexivity.
  - apply (proj2 (proj2 (data_means_no_error_line Fixture.scenario
                           (Fixture.settings Fixture.key) initial _))
             (5%float, 4%float, (-1)%float)).
    vm_compute. reflexivity.
Defined.

(** ** Running without a key *)

(** X16: with FRED_API_KEY defined as the empty text the yield curve is
    switched off: its fetcher returns no data and leaves the state as it
    was, and a turn of the loop that completes has made the VIX and the
    S&P 500 requests and no other. *)
Theorem empty_key_turns_yield_curve_off (rt : Runtime) (cfg : Settings) (s : State) :
  FRED_API_KEY cfg = "" ->
  check_yield_curve rt cfg s = (Ok None, s) /\
  (forall s', cycle rt cfg s = (Ok tt, s') ->
     sent s' = app (sent s) [get_request VIX_URL 30; get_request SP500_URL 30]).
Proof.
  intros Hk. split.
  - unfold check_yield_curve. rewrite Hk. reflexivity.
  - intros s' H.
    destruct (cycle_effect rt cfg s) as (l & n & z & Hs & _ & _ & Hok & _).
    rewrite H in Hs, Hok. simpl in Hs, Hok.
    destruct (Hok eq_refl) as (_ & Hn & _). subst s'.
    unfold cycle_requests, fred_requests. rewrite Hk. simpl.
    destruct n as [| [| n]]; [lia | lia |].
    simpl. rewrite firstn_nil. reflexivity.
Qed.

Lemma empty_key_turns_yield_curve_off_witness :
  check_yield_curve Fixture.scenario (Fixture.settings "") initial = (Ok None, initial) /\
  sent (snd (cycle Fixture.scenario (Fixture.settings "") initial))
  = app (sent initial) [get_request VIX_URL 30; get_request SP500_URL 30].
Proof.
  destruct (empty_key_turns_yield_curve_off Fixture.scenario (Fixture.settings "") initial
              eq_refl) as (H1 & H2).
  split; [exact H1 |].
  apply H2. vm_compute. reflexivity.
Defined.

(** ** Failure isolation, kind by kind *)

Lemma get_failed (rt : Runtime) (u : string) (tmo : Z) (s : State) (detail : string) :
  network rt (List.length (sent s)) (get_request u tmo) = Failed detail ->
  get rt u tmo s = (Raise (Builtin RequestException detail), asked s (get_request u tmo)).
Proof.
  intros Hn. unfold get, bind, requests_get. rewrite Hn. reflexivity.
Qed.

Lemma get_not_200 (rt : Runtime) (u : string) (tmo : Z) (s : State) (r : Response) :
  network rt (List.length (sent s)) (get_request u tmo) = Delivered r ->
  status_code r <> 200 ->
  get rt u tmo s
  = (Raise (HTTPError (status_code r) (Some (str_bytes rt (content r)))),
     asked s (get_request u tmo)).
Proof.
  intros Hn Hs. unfold get, bind, requests_get. rewrite Hn.
  apply Z.eqb_neq in Hs. rewrite Hs. reflexivity.
Qed.

(** With both series delivered and decoded, the [try] block of the
    yield-curve fetcher ends well only if both last values are floats. *)
Lemma check_yield_curve_body_values (rt : Runtime) (k : string) (s s' : State)
    (r2 r10 : Response) (d2 d10 : value) (res : option (float * float * float)) :
  network rt (List.length (sent s)) (fred_request (fred_url "DGS2" k)) = Delivered r2 ->
  network rt (S (List.length (sent s))) (fred_request (fred_url "DGS10" k))
    = Delivered r10 ->
  json_loads rt (content r2) = inr d2 ->
  json_loads rt (content r10) = inr d10 ->
  check_yield_curve_body rt k s = (Ok res, s') ->
  exists y2 y10, last_value rt d2 = Ok y2 /\ last_value rt d10 = Ok y10.
Proof.
  intros Hn2 Hn10 Hj2 Hj10.
  unfold check_yield_curve_body, bind.
  rewrite (fred_last_observation_delivered rt _ s r2 Hn2).
  unfold response_json at 1. rewrite Hj2.
  change (and_then (Ok d2) ?f) with (f d2). cbv beta.
  unfold last_value.
  destruct (getitem_key d2 "observations") as [obs2 | e]; simpl; [| discriminate].
  destruct (getitem_index obs2 (-1)) as [o2 | e]; simpl; [| discriminate].
  rewrite (fred_last_observation_delivered rt _ (asked s _) r10).
  2:{ simpl. rewrite length_app, Nat.add_comm. exact Hn10. }
  unfold response_json. rewrite Hj10.
  change (and_then (Ok d10) ?f) with (f d10). cbv beta.
  destruct (getitem_key d10 "observations") as [obs10 | e]; simpl; [| discriminate].
  destruct (getitem_index obs10 (-1)) as [o10 | e]; simpl; [| discriminate].
  unfold lift.
  destruct (and_then (getitem_key o2 "value") (py_float rt)) as [y2 | e];
    [| discriminate].
  destruct (and_then (getitem_key o10 "value") (py_float rt)) as [y10 | e];
    [| discriminate].
  intros _. exists y2, y10. split; reflexivity.
Qed.

(** C7, as the code has it: a non-success status and a payload of the wrong
    type do not always end in the no-data result.  FRED answering 500 with
    well-formed series gives the yield-curve fetcher its triple, and a quote
    document whose price is a text gives the VIX fetcher that text. *)
Lemma bad_status_and_text_price_pass_as_data :
  network Fixture.fred_500 0 (fred_request (fred_url "DGS2" Fixture.key))
    = Delivered {| status_code := 500; content := Fixture.fred_body "4.50" |} /\
  network Fixture.fred_500 1 (fred_request (fred_url "DGS10" Fixture.key))
    = Delivered {| status_code := 500; content := Fixture.fred_body "3.75" |} /\
  fst (check_yield_curve Fixture.fred_500 (Fixture.settings Fixture.key) initial)
    = Ok (Some (4.5%float, 3.75%float, (-0.75)%float)) /\
  vix_path (Fixture.vix_doc (VStr "18.5")) = Ok (VStr "18.5") /\
  fst (check_vix Fixture.vix_text initial) = Ok (VStr "18.5").
Proof. repeat split; vm_compute; reflexivity. Qed.

(** C7, amended: none of the three fetchers ever hands an exception to the
    monitor loop: whatever the upstream answers, the fetcher returns
    normally, and every error raised inside its [try] block ends in the
    no-data result.  That covers a failure on the wire at each fetcher, a
    status other than 200 on the VIX and the S&P 500 requests (which go
    through [get]), a key or an item missing on the way to the price or to
    the closes, closes that cannot be iterated or summed, and a FRED
    observation that is missing or whose value [float] rejects. *)
Theorem fetchers_isolate_failures (rt : Runtime) (cfg : Settings) (s : State) :
  ((exists v s', check_vix rt s = (Ok v, s')) /\
   (exists r s', check_sp500_200ma rt s = (Ok r, s')) /\
   (exists r s', check_yield_curve rt cfg s = (Ok r, s'))) /\
  ((forall e s1, check_vix_body rt s = (Raise e, s1) ->
      fst (check_vix rt s) = Ok VNone) /\
   (forall e s1, check_sp500_200ma_body rt s = (Raise e, s1) ->
      fst (check_sp500_200ma rt s) = Ok None) /\
   (forall e s1, check_yield_curve_body rt (FRED_API_KEY cfg) s = (Raise e, s1) ->
      fst (check_yield_curve rt cfg s) = Ok None)) /\
  ((forall detail,
      network rt (List.length (sent s)) (get_request VIX_URL 30) = Failed detail ->
      fst (check_vix rt s) = Ok VNone) /\
   (forall detail,
      network rt (List.length (sent s)) (get_request SP500_URL 30) = Failed detail ->
      fst (check_sp500_200ma rt s) = Ok None) /\
   (forall detail,
      network rt (List.length (sent s))
        (fred_request (fred_url "DGS2" (FRED_API_KEY cfg))) = Failed detail ->
      fst (check_yield_curve rt cfg s) = Ok None)) /\
  ((forall r,
      network rt (List.length (sent s)) (get_request VIX_URL 30) = Delivered r ->
      status_code r <> 200 ->
      fst (check_vix rt s) = Ok VNone) /\
   (forall r,
      network rt (List.length (sent s)) (get_request SP500_URL 30) = Delivered r ->
      status_code r <> 200 ->
      fst (check_sp500_200ma rt s) = Ok None)) /\
  ((forall r data e,
      network rt (List.length (sent s)) (get_request VIX_URL 30) = Delivered r ->
      status_code r = 200 ->
      json_loads rt (content r) = inr data ->
      vix_path data = Raise e ->
      fst (check_vix rt s) = Ok VNone) /\
   (forall r data e,
      network rt (List.length (sent s)) (get_request SP500_URL 30) = Delivered r ->
      status_code r = 200 ->
      json_loads rt (content r) = inr data ->
      and_then (closes_path data) sp500_of_closes = Raise e ->
      fst (check_sp500_200ma rt s) = Ok None) /\
   (forall r2 r10 d2 d10 e,
      network rt (List.length (sent s))
        (fred_request (fred_url "DGS2" (FRED_API_KEY cfg))) = Delivered r2 ->
      network rt (S (List.length (sent s)))
        (fred_request (fred_url "DGS10" (FRED_API_KEY cfg))) = Delivered r10 ->
      json_loads rt (content r2) = inr d2 ->
      json_loads rt (content r10) = inr d10 ->
      last_value rt d2 = Raise e \/ last_value rt d10 = Raise e ->
      fst (check_yield_curve rt cfg s) = Ok None)).
Proof.
  destruct (fetchers_never_raise rt cfg s) as (T1 & T2 & T3 & G1 & G2 & G3).
  split; [repeat split; assumption |].
  split; [repeat split; assumption |].
  split; [| split].
  - split; [| split].
    + intros d Hn. eapply G1. unfold check_vix_body, bind.
      rewrite (get_failed rt VIX_URL 30 s d Hn). reflexivity.
    + intros d Hn. eapply G2. unfold check_sp500_200ma_body, bind.
      rewrite (get_failed rt SP500_URL 30 s d Hn). reflexivity.
    + intros d Hn. eapply G3.
      unfold check_yield_curve_body, bind, fred_last_observation, bind, requests_get.
      rewrite Hn. reflexivity.
  - split.
    + intros r Hn Hs. eapply G1. unfold check_vix_body, bind.
      rewrite (get_not_200 rt VIX_URL 30 s r Hn Hs). reflexivity.
    + intros r Hn Hs. eapply G2. unfold check_sp500_200ma_body, bind.
      rewrite (get_not_200 rt SP500_URL 30 s r Hn Hs). reflexivity.
  - split; [| split].
    + intros r data e Hn Hs Hj Hp. eapply G1. unfold check_vix_body, bind.
      rewrite (get_delivered_200 rt VIX_URL 30 s r data Hn Hs Hj).
      unfold lift. rewrite Hp. reflexivity.
    + intros r data e Hn Hs Hj Hp. eapply (G2 e). unfold check_sp500_200ma_body, bind.
      rewrite (get_delivered_200 rt SP500_URL 30 s r data Hn Hs Hj).
      unfold lift. unfold and_then in Hp.
      destruct (closes_path data) as [raw | e']; [rewrite Hp | injection Hp as ->];
        reflexivity.
    + intros r2 r10 d2 d10 e Hn2 Hn10 Hj2 Hj10 Hv.
      destruct (check_yield_curve_body rt (FRED_API_KEY cfg) s) as [[res | e'] s1] eqn:Hb.
      * destruct (check_yield_curve_body_values rt _ _ _ _ _ _ _ _ Hn2 Hn10 Hj2 Hj10 Hb)
          as (y2 & y10 & H2 & H10).
        destruct Hv as [Hv | Hv]; congruence.
      * exact (G3 e' s1 eq_refl).
Qed.

Lemma fetchers_isolate_failures_witness :
  fst (check_vix Fixture.outage initial) = Ok VNone /\
  fst (check_sp500_200ma Fixture.outage initial) = Ok None /\
  fst (check_yield_curve Fixture.outage (Fixture.settings Fixture.key) initial) = Ok None.
Proof.
  pose proof (fetchers_isolate_failures Fixture.outage (Fixture.settings Fixture.key) initial)
    as (_ & _ & (Hwire & _ & _) & (_ & Hstatus) & (_ & _ & Hvalue)).
  split; [| split].
  - apply (Hwire "Connection refused"). reflexivity.
  - apply (Hstatus {| status_code := 503; content := "Service Unavailable" |}).
    + reflexivity.
    + simpl. lia.
  - apply (Hvalue {| status_code := 200; content := Fixture.fred_body "." |}
             {| status_code := 200; content := Fixture.fred_body "4.00" |}
             (Fixture.fred_doc ".") (Fixture.fred_doc "4.00")
             (Builtin ValueError "could not convert string to float: '.'")).
    + reflexivity.
    + reflexivity.
    + vm_compute. reflexivity.
    + vm_compute. reflexivity.
    + left. vm_compute. reflexivity.
Defined.
